(** * mysql_mcp: the SQL tool and table resources of [server.py]

    A shallow embedding of [src/mysql_mcp/server.py].  The handlers
    [execute_sql], [list_tables] and [describe_table] talk to the
    MySQL connector through [connect], [cursor], [execute],
    [fetchall], [fetchone], [commit] and the two context-manager exits.
    The connector is not part of the repository, so it is a record of
    operations over an abstract database state ([Driver]); the handlers
    are written in a state-and-exception monad over that state, with a
    log of every call that crosses the database boundary. *)

From Stdlib Require Import String Ascii List ZArith Bool Lia.
From Stdlib Require Import DecimalString.
Import ListNotations.

Local Open Scope list_scope.
Local Open Scope string_scope.

(** ** Python values that reach the handlers *)

(** The line feed, Python's ["\n"]. *)
Definition nl : string := String (ascii_of_nat 10) EmptyString.

(** [sep.join(parts)]. *)
Definition join (sep : string) (parts : list string) : string :=
  String.concat sep parts.

(** [s * n] on a string. *)
Fixpoint py_mul (s : string) (n : nat) : string :=
  match n with
  | O => EmptyString
  | S k => s ++ py_mul s k
  end.

(** [l.append(x)] and [l.extend(xs)], as values. *)
Definition append {A} (l : list A) (x : A) : list A := (l ++ [x])%list.
Definition extend {A} (l xs : list A) : list A := (l ++ xs)%list.

(** [str(n)] on an int. *)
Definition str_int (z : Z) : string :=
  NilZero.string_of_int (Z.to_int z).

(** A value the connector hands back in a row.  [CObj] stands for any
    other object (Decimal, datetime, bytes, float): the handlers only
    test its truth value and take its [str()]. *)
Inductive Cell : Type :=
| CNone
| CInt (z : Z)
| CStr (s : string)
| CObj (truthy : bool) (text : string).

(** [str(c)], also [f"{c!s}"]. *)
Definition str (c : Cell) : string :=
  match c with
  | CNone => "None"
  | CInt z => str_int z
  | CStr s => s
  | CObj _ t => t
  end.

(** Truth value of a cell in [if c] and [... if c else ...]. *)
Definition truthy (c : Cell) : bool :=
  match c with
  | CNone => false
  | CInt z => negb (z =? 0)%Z
  | CStr s => negb (s =? "")
  | CObj b _ => b
  end.

(** [c == "YES"] style comparison against a str literal. *)
Definition eq_str (c : Cell) (lit : string) : bool :=
  match c with
  | CStr s => s =? lit
  | _ => false
  end.

(** [c is not None]. *)
Definition is_not_none (c : Cell) : bool :=
  match c with
  | CNone => false
  | _ => true
  end.

(** A row is a tuple of cells. *)
Definition Row : Type := list Cell.

(** One entry of [cursor.description]: the DB-API 7-tuple, of which the
    code reads index 0, the column name. *)
Record Desc : Type := mkDesc {
  desc_name : string;
  desc_rest : list Cell
}.

(** ** Exceptions *)

(** The classes the [except] clauses tell apart: [mysql.connector.Error],
    [ValueError], and every other subclass of [Exception]. *)
Inductive ExcClass : Type :=
| MySQLError
| ValueError
| OtherException.

(** An exception object with its [str(e)]. *)
Record Exn : Type := mkExn {
  exc_class : ExcClass;
  exc_text : string
}.

Inductive Outcome (A : Type) : Type :=
| Returned (a : A)
| Raised (e : Exn).

Arguments Returned {A} a.
Arguments Raised {A} e.

(** ** Configuration *)

(** Values stored in the config dict. *)
Inductive CfgVal : Type :=
| VNone
| VStr (s : string)
| VInt (z : Z)
| VBool (b : bool).

(** The dict, in insertion order. *)
Definition Config : Type := list (string * CfgVal).

(** [config.get(k)]: [None] when the key is missing. *)
Fixpoint config_get (k : string) (c : Config) : CfgVal :=
  match c with
  | [] => VNone
  | (k', v) :: rest => if k' =? k then v else config_get k rest
  end.

Definition cfg_truthy (v : CfgVal) : bool :=
  match v with
  | VNone => false
  | VStr s => negb (s =? "")
  | VInt z => negb (z =? 0)%Z
  | VBool b => b
  end.

Definition cfg_is_none (v : CfgVal) : bool :=
  match v with
  | VNone => true
  | _ => false
  end.

(** [os.getenv]: the process environment. *)
Definition Env : Type := string -> option string.

(** [os.getenv(k)]. *)
Definition getenv (env : Env) (k : string) : CfgVal :=
  match env k with
  | Some s => VStr s
  | None => VNone
  end.

(** [os.getenv(k, default)]. *)
Definition getenv_default (env : Env) (k default : string) : string :=
  match env k with
  | Some s => s
  | None => default
  end.

Definition missing_config_message : string :=
  "Missing required database configuration. " ++
  "Please set MYSQL_USER, MYSQL_PASSWORD, and MYSQL_DATABASE " ++
  "environment variables.".

(** ** The database boundary *)

(** The connector, as the handlers use it.  Every call may raise and may
    change the database state [St]; [description] and [rowcount] are
    attribute reads on the cursor. *)
Record Driver (St : Type) : Type := mkDriver {
  drv_connect : Config -> St -> Outcome unit * St;
  drv_cursor : St -> Outcome unit * St;
  drv_execute : string -> option (list Cell) -> St -> Outcome unit * St;
  drv_description : St -> option (list Desc);
  drv_rowcount : St -> Z;
  drv_fetchall : St -> Outcome (list Row) * St;
  drv_fetchone : St -> Outcome (option Row) * St;
  drv_commit : St -> Outcome unit * St;
  drv_cursor_exit : St -> Outcome unit * St;
  drv_conn_exit : St -> Outcome unit * St
}.

Arguments drv_connect {St} _ _ _.
Arguments drv_cursor {St} _ _.
Arguments drv_execute {St} _ _ _ _.
Arguments drv_description {St} _ _.
Arguments drv_rowcount {St} _ _.
Arguments drv_fetchall {St} _ _.
Arguments drv_fetchone {St} _ _.
Arguments drv_commit {St} _ _.
Arguments drv_cursor_exit {St} _ _.
Arguments drv_conn_exit {St} _ _.

(** What crosses the boundary, in the order it happens. *)
Inductive Event : Type :=
| EvConnect (config : Config)
| EvCursor
| EvExecute (sql : string) (params : option (list Cell))
| EvFetchall
| EvFetchone
| EvCommit
| EvCursorExit
| EvConnExit.

Record World (St : Type) : Type := mkWorld {
  w_db : St;
  w_log : list Event
}.

Arguments mkWorld {St} _ _.
Arguments w_db {St} _.
Arguments w_log {St} _.

(** ** The monad of the handlers: state, log and exceptions *)

Module PyM.

Definition M (St A : Type) : Type := World St -> Outcome A * World St.

Definition ret {St A} (a : A) : M St A := fun w => (Returned a, w).

Definition raise {St A} (e : Exn) : M St A := fun w => (Raised e, w).

Definition bind {St A B} (c : M St A) (k : A -> M St B) : M St B :=
  fun w =>
    match c w with
    | (Returned a, w') => k a w'
    | (Raised e, w') => (Raised e, w')
    end.

(** A pure computation that may raise. *)
Definition lift {St A} (o : Outcome A) : M St A := fun w => (o, w).

(** A call on the connector: logged, then run on the database state. *)
Definition call {St A} (ev : Event) (op : St -> Outcome A * St) : M St A :=
  fun w =>
    let (r, st') := op (w_db w) in
    (r, mkWorld st' (w_log w ++ [ev])%list).

(** An attribute read on the cursor. *)
Definition read {St A} (f : St -> A) : M St A :=
  fun w => (Returned (f (w_db w)), w).

(** [with acquire as x: body]: the exit runs on every way out of the
    body, and an exception raised by the exit replaces the body's
    result. *)
Definition with_ {St R A} (acquire : M St R) (release : M St unit)
    (body : R -> M St A) : M St A :=
  fun w =>
    match acquire w with
    | (Raised e, w1) => (Raised e, w1)
    | (Returned r, w1) =>
        let (res, w2) := body r w1 in
        match release w2 with
        | (Raised e', w3) => (Raised e', w3)
        | (Returned _, w3) => (res, w3)
        end
    end.

(** [try: body / except Error as e: ... / except Exception as e: ...]
    as the three handlers end. *)
Definition try_except {St} (body : M St string) : M St string :=
  fun w =>
    match body w with
    | (Returned s, w') => (Returned s, w')
    | (Raised e, w') =>
        match exc_class e with
        | MySQLError => (Returned ("MySQL error: " ++ exc_text e), w')
        | _ => (Returned ("Unexpected error: " ++ exc_text e), w')
        end
    end.

End PyM.

Import PyM.

Notation "x <- c ;; k" := (bind c (fun x => k))
  (at level 61, c at next level, right associativity).
Notation "c ;;; k" := (bind c (fun _ => k))
  (at level 61, right associativity).

(** ** The handlers of [server.py] *)

Section Server.

(** Python's [int()] on a str, a built-in: [None] is its [ValueError],
    whose text is [py_int_error]. *)
Variable py_int : string -> option Z.
Variable py_int_error : string -> string.

(** Text of the [ValueError] that unpacking a tuple of the wrong length
    into six names raises. *)
Variable unpack_error : nat -> string.

Context {St : Type}.
Variable drv : Driver St.

(** [all([...])]. *)
Definition all (l : list bool) : bool := forallb (fun b => b) l.

Definition get_db_config (env : Env) : Outcome Config :=
  match py_int (getenv_default env "MYSQL_PORT" "3306") with
  | None =>
      Raised (mkExn ValueError
                (py_int_error (getenv_default env "MYSQL_PORT" "3306")))
  | Some port =>
      let config : Config :=
        [ ("host", VStr (getenv_default env "MYSQL_HOST" "localhost"));
          ("port", VInt port);
          ("user", getenv env "MYSQL_USER");
          ("password", getenv env "MYSQL_PASSWORD");
          ("database", getenv env "MYSQL_DATABASE");
          ("charset", VStr (getenv_default env "MYSQL_CHARSET" "utf8mb4"));
          ("collation",
            VStr (getenv_default env "MYSQL_COLLATION" "utf8mb4_unicode_ci"));
          ("autocommit", VBool true);
          ("sql_mode",
            VStr (getenv_default env "MYSQL_SQL_MODE" "TRADITIONAL")) ] in
      let ssl_cert := getenv env "MYSQL_CERT" in
      let config :=
        if cfg_truthy ssl_cert
        then (config ++ [("ssl_ca", ssl_cert)])%list
        else config in
      let config :=
        filter (fun kv => negb (cfg_is_none (snd kv))) config in
      if negb (all [ cfg_truthy (config_get "user" config);
                     cfg_truthy (config_get "password" config);
                     cfg_truthy (config_get "database" config) ])
      then Raised (mkExn ValueError missing_config_message)
      else Returned config
  end.

(** The connector calls, each one logged. *)
Definition connect (config : Config) : M St unit :=
  call (EvConnect config) (drv_connect drv config).
Definition conn_exit : M St unit := call EvConnExit (drv_conn_exit drv).
Definition cursor : M St unit := call EvCursor (drv_cursor drv).
Definition cursor_exit : M St unit :=
  call EvCursorExit (drv_cursor_exit drv).
Definition execute (sql : string) (params : option (list Cell)) : M St unit :=
  call (EvExecute sql params) (drv_execute drv sql params).
Definition fetchall : M St (list Row) := call EvFetchall (drv_fetchall drv).
Definition fetchone : M St (option Row) :=
  call EvFetchone (drv_fetchone drv).
Definition commit : M St unit := call EvCommit (drv_commit drv).
Definition description : M St (option (list Desc)) :=
  read (drv_description drv).
Definition rowcount : M St Z := read (drv_rowcount drv).

(** The block inside [try:] of [execute_sql]. *)
Definition execute_sql_body (config : Config) (query : string) : M St string :=
  with_ (connect config) conn_exit (fun _ =>
    with_ cursor cursor_exit (fun _ =>
      execute query None ;;;
      d <- description ;;
      match d with
      | Some (d0 :: ds) =>
          let columns := map desc_name (d0 :: ds) in
          rows <- fetchall ;;
          match rows with
          | [] => ret "Query executed successfully. No results returned."
          | _ :: _ =>
              let result_lines := [join "," columns] in
              let result_lines :=
                extend result_lines
                  (map (fun row => join "," (map str row)) rows) in
              ret (join nl result_lines)
          end
      | _ =>
          commit ;;;
          n <- rowcount ;;
          ret ("Query executed successfully. " ++
               str_int n ++ " rows affected.")
      end)).

Definition execute_sql (env : Env) (query : string) : M St string :=
  config <- lift (get_db_config env) ;;
  try_except (execute_sql_body config query).

(** The loop of [list_tables]. *)
Fixpoint list_tables_loop (tables : list Row) (table_list : list string)
  : list string :=
  match tables with
  | [] => table_list
  | table :: rest =>
      match table with
      | c :: _ => list_tables_loop rest (append table_list ("- " ++ str c))
      | [] => list_tables_loop rest table_list
      end
  end.

Definition list_tables_body (config : Config) : M St string :=
  with_ (connect config) conn_exit (fun _ =>
    with_ cursor cursor_exit (fun _ =>
      execute "SHOW TABLES" None ;;;
      tables <- fetchall ;;
      match tables with
      | [] => ret "No tables found in the database."
      | _ :: _ =>
          let table_list := list_tables_loop tables [] in
          ret ("Available tables:" ++ nl ++ join nl table_list)
      end)).

Definition list_tables (env : Env) : M St string :=
  config <- lift (get_db_config env) ;;
  try_except (list_tables_body config).

(** [field, type_, null, key, default, extra = col]. *)
Definition unpack6 (col : Row)
  : Outcome (Cell * Cell * Cell * Cell * Cell * Cell) :=
  match col with
  | [field; type_; null; key; default; extra] =>
      Returned (field, type_, null, key, default, extra)
  | _ => Raised (mkExn ValueError (unpack_error (List.length col)))
  end.

(** The [for col in columns] loop of [describe_table], on the list
    [result] it appends to. *)
Fixpoint describe_loop (columns : list Row) (result : list string)
  : Outcome (list string) :=
  match columns with
  | [] => Returned result
  | col :: rest =>
      match unpack6 col with
      | Raised e => Raised e
      | Returned (field, type_, null, key, default, extra) =>
          let null_str := if eq_str null "YES" then "NULL" else "NOT NULL" in
          let key_str := if truthy key then " (" ++ str key ++ ")" else "" in
          let default_str :=
            if is_not_none default then " DEFAULT " ++ str default else "" in
          let extra_str := if truthy extra then " " ++ str extra else "" in
          let col_info := null_str ++ key_str ++ default_str ++ extra_str in
          describe_loop rest
            (append result
               ("  - " ++ str field ++ ": " ++ str type_ ++ " " ++ col_info))
      end
  end.

(** [count_result[0] if count_result else 0]. *)
Definition row_count_of (count_result : option Row) : Cell :=
  match count_result with
  | Some (c :: _) => c
  | _ => CInt 0
  end.

Definition describe_table_body (config : Config) (table : string)
  : M St string :=
  with_ (connect config) conn_exit (fun _ =>
    with_ cursor cursor_exit (fun _ =>
      execute ("DESCRIBE `" ++ table ++ "`") None ;;;
      columns <- fetchall ;;
      match columns with
      | [] => ret ("Table '" ++ table ++ "' not found or has no columns.")
      | _ :: _ =>
          let result := ["Table: " ++ table; py_mul "=" 50; ""] in
          let result := append result "Columns:" in
          result <- lift (describe_loop columns result) ;;
          execute ("SELECT COUNT(*) FROM `" ++ table ++ "`") None ;;;
          count_result <- fetchone ;;
          let row_count := row_count_of count_result in
          let result :=
            extend result [""; "Total rows: " ++ str row_count] in
          ret (join nl result)
      end)).

Definition describe_table (env : Env) (table : string) : M St string :=
  config <- lift (get_db_config env) ;;
  try_except (describe_table_body config table).

End Server.

(** ** A scripted connector and a test environment

    The tests of the repository replace the connector by a mock whose
    answers are fixed in advance; [Mock] is that script. *)

Record Mock : Type := mkMock {
  mock_connect_error : option Exn;
  mock_execute_error : option Exn;
  mock_description : option (list Desc);
  mock_fetchall : list Row;
  mock_fetchone : option Row;
  mock_rowcount : Z
}.

Definition scripted {A} (err : option Exn) (a : A) (m : Mock)
  : Outcome A * Mock :=
  match err with
  | Some e => (Raised e, m)
  | None => (Returned a, m)
  end.

Definition mock_driver : Driver Mock :=
  {| drv_connect := fun _ m => scripted (mock_connect_error m) tt m;
     drv_cursor := fun m => (Returned tt, m);
     drv_execute := fun _ _ m => scripted (mock_execute_error m) tt m;
     drv_description := mock_description;
     drv_rowcount := mock_rowcount;
     drv_fetchall := fun m => (Returned (mock_fetchall m), m);
     drv_fetchone := fun m => (Returned (mock_fetchone m), m);
     drv_commit := fun m => (Returned tt, m);
     drv_cursor_exit := fun m => (Returned tt, m);
     drv_conn_exit := fun m => (Returned tt, m) |}.

(** Plain decimal digits, the part of [int()] the test settings use. *)
Definition digit_value (c : ascii) : option Z :=
  let n := nat_of_ascii c in
  if andb (48 <=? n)%nat (n <=? 57)%nat then Some (Z.of_nat (n - 48)) else None.

Fixpoint decimal_from (acc : Z) (s : string) : option Z :=
  match s with
  | EmptyString => Some acc
  | String c rest =>
      match digit_value c with
      | Some d => decimal_from (10 * acc + d) rest
      | None => None
      end
  end.

Definition decimal_int (s : string) : option Z :=
  match s with
  | EmptyString => None
  | _ => decimal_from 0 s
  end.

Definition int_error_text (s : string) : string :=
  "invalid literal for int() with base 10: '" ++ s ++ "'".

Definition unpack_error_text (n : nat) : string :=
  if (n <? 6)%nat
  then "not enough values to unpack (expected 6, got " ++
       str_int (Z.of_nat n) ++ ")"
  else "too many values to unpack (expected 6)".

(** The environment the tests patch in. *)
Definition test_env : Env := fun k =>
  if k =? "MYSQL_USER" then Some "test_user"
  else if k =? "MYSQL_PASSWORD" then Some "test_password"
  else if k =? "MYSQL_DATABASE" then Some "test_db"
  else None.

(** [patch.dict(os.environ, {}, clear=True)]. *)
Definition empty_env : Env := fun _ => None.

Definition test_config : Config :=
  [ ("host", VStr "localhost"); ("port", VInt 3306);
    ("user", VStr "test_user"); ("password", VStr "test_password");
    ("database", VStr "test_db"); ("charset", VStr "utf8mb4");
    ("collation", VStr "utf8mb4_unicode_ci"); ("autocommit", VBool true);
    ("sql_mode", VStr "TRADITIONAL") ].

(** The world before the call: the script, and an empty log. *)
Definition world_of (m : Mock) : World Mock := mkWorld m [].

(** Scripts of the connector, after the tests. *)

(** [SHOW TABLES] with two tables. *)
Definition show_tables_mock : Mock :=
  mkMock None None (Some [mkDesc "Tables_in_test_db" []])
    [[CStr "users"]; [CStr "products"]] None (-1).

(** An INSERT: no description, row count 1. *)
Definition insert_mock : Mock := mkMock None None None [] None 1.

(** A SELECT that matches nothing. *)
Definition empty_result_mock : Mock :=
  mkMock None None (Some [mkDesc "id" []; mkDesc "name" []]) [] None 0.

(** DESCRIBE of the users table and its row count. *)
Definition users_table_mock : Mock :=
  mkMock None None None
    [ [CStr "id"; CStr "int(11)"; CStr "NO"; CStr "PRI"; CNone;
       CStr "auto_increment"];
      [CStr "name"; CStr "varchar(255)"; CStr "NO"; CStr ""; CNone; CStr ""] ]
    (Some [CInt 50]) (-1).

(** [connect] raises [Error("Connection failed")]. *)
Definition unreachable_mock : Mock :=
  mkMock (Some (mkExn MySQLError "Connection failed")) None None [] None (-1).

(** Every statement is refused the way the server refuses an unknown
    table. *)
Definition unknown_table_mock (table : string) : Mock :=
  mkMock None
    (Some (mkExn MySQLError
             ("1146 (42S02): Table 'test_db." ++ table ++ "' doesn't exist")))
    None [] None (-1).

(** A database in which nothing matches: every fetch comes back empty. *)
Definition no_match_mock : Mock := mkMock None None None [] None (-1).

(** ** Observations on the output and on the log *)

(** [needle in hay] on strings. *)
Fixpoint contains (needle hay : string) : bool :=
  if String.prefix needle hay then true
  else match hay with
       | EmptyString => false
       | String _ rest => contains needle rest
       end.

Definition is_newline (c : ascii) : bool := Ascii.eqb c (ascii_of_nat 10).

(** No line feed inside. *)
Fixpoint newline_free (s : string) : bool :=
  match s with
  | EmptyString => true
  | String c rest => negb (is_newline c) && newline_free rest
  end.

(** [s.split("\n")]. *)
Fixpoint split_lines (s : string) : list string :=
  match s with
  | EmptyString => [EmptyString]
  | String c rest =>
      if is_newline c then EmptyString :: split_lines rest
      else match split_lines rest with
           | line :: more => String c line :: more
           | [] => [String c EmptyString]
           end
  end.

Definition is_commit (ev : Event) : bool :=
  match ev with
  | EvCommit => true
  | _ => false
  end.

(** Number of [conn.commit()] calls in a log. *)
Definition commits (log : list Event) : nat :=
  List.length (filter is_commit log).

Definition is_execute (ev : Event) : bool :=
  match ev with
  | EvExecute _ _ => true
  | _ => false
  end.

(** The statements sent through [cursor.execute], in order. *)
Definition statements (log : list Event) : list string :=
  flat_map (fun ev => match ev with
                      | EvExecute sql _ => [sql]
                      | _ => []
                      end) log.

(** [if cursor.description] fails: [None] or an empty sequence. *)
Definition absent (d : option (list Desc)) : bool :=
  match d with
  | Some (_ :: _) => false
  | _ => true
  end.

(** ** Successful stretches of a session *)

Section Session.

Context {St : Type}.
Variable drv : Driver St.

(** [connect] and [conn.cursor()] both return. *)
Definition opens (config : Config) (st st' : St) : Prop :=
  exists st1,
    drv_connect drv config st = (Returned tt, st1) /\
    drv_cursor drv st1 = (Returned tt, st').

(** [cursor.execute(sql)] returns. *)
Definition executes (sql : string) (st st' : St) : Prop :=
  drv_execute drv sql None st = (Returned tt, st').

(** Both context managers exit without raising. *)
Definition closes (st st' : St) : Prop :=
  exists st1,
    drv_cursor_exit drv st = (Returned tt, st1) /\
    drv_conn_exit drv st1 = (Returned tt, st').

(** Every exception the connector raises is a [mysql.connector.Error]. *)
Definition database_errors_only : Prop :=
  (forall c st e st', drv_connect drv c st = (Raised e, st') ->
                      exc_class e = MySQLError) /\
  (forall st e st', drv_cursor drv st = (Raised e, st') ->
                    exc_class e = MySQLError) /\
  (forall q p st e st', drv_execute drv q p st = (Raised e, st') ->
                        exc_class e = MySQLError) /\
  (forall st e st', drv_fetchone drv st = (Raised e, st') ->
                    exc_class e = MySQLError) /\
  (forall st e st', drv_cursor_exit drv st = (Raised e, st') ->
                    exc_class e = MySQLError) /\
  (forall st e st', drv_conn_exit drv st = (Raised e, st') ->
                    exc_class e = MySQLError).

(** Modelled from the spec: [table_exists], which [__init__.py] imports
    from [server.py] and the tests call, is not defined in [server.py].
    The spec's ExistenceGuard opens a scoped connection, runs the
    parameterized check [SHOW TABLES LIKE %s] with the name bound as
    parameter, and returns true iff a matching row is returned. *)
Definition table_exists_check (name : string) (config : Config) : M St bool :=
  with_ (connect drv config) (conn_exit drv) (fun _ =>
    with_ (cursor drv) (cursor_exit drv) (fun _ =>
      execute drv "SHOW TABLES LIKE %s" (Some [CStr name]) ;;;
      row <- fetchone drv ;;
      ret (match row with
           | Some _ => true
           | None => false
           end))).

(** Modelled from the spec: [table_exists] (see [table_exists_check]):
    on any database error it returns false rather than propagating. *)
Definition table_exists (name : string) (config : Config) : M St bool :=
  fun w =>
    match table_exists_check name config w with
    | (Returned b, w') => (Returned b, w')
    | (Raised e, w') =>
        match exc_class e with
        | MySQLError => (Returned false, w')
        | _ => (Raised e, w')
        end
    end.

End Session.

(** ** The identifier rule *)

Definition is_letter (c : ascii) : bool :=
  let n := nat_of_ascii c in
  ((65 <=? n) && (n <=? 90) || (97 <=? n) && (n <=? 122))%nat.

Definition is_digit (c : ascii) : bool :=
  let n := nat_of_ascii c in
  ((48 <=? n) && (n <=? 57))%nat.

(** The class [[A-Za-z0-9_$]]. *)
Definition is_word_char (c : ascii) : bool :=
  is_letter c || is_digit c || Ascii.eqb c "_" || Ascii.eqb c "$".

(** The class [[A-Za-z_$]]. *)
Definition is_start_char (c : ascii) : bool :=
  is_letter c || Ascii.eqb c "_" || Ascii.eqb c "$".

Definition starts_with_digit (s : string) : bool :=
  match s with
  | String c _ => is_digit c
  | EmptyString => false
  end.

(** Modelled from the spec: [validate_table_name], which [__init__.py]
    imports from [server.py] and the tests call, is not defined in
    [server.py].  The spec's IdentifierValidator returns false for the
    empty string, a length over 64, any character outside
    [[A-Za-z0-9_$]], or a first character that is a digit, and true
    otherwise. *)
Definition validate_table_name (name : string) : bool :=
  if name =? "" then false
  else if (64 <? String.length name)%nat then false
  else if existsb (fun c => negb (is_word_char c)) (list_ascii_of_string name)
  then false
  else if starts_with_digit name then false
  else true.

(** The shape [[A-Za-z_$][A-Za-z0-9_$]*] of the data model, matched on
    the whole string. *)
Fixpoint word_chars (s : string) : bool :=
  match s with
  | EmptyString => true
  | String c rest => is_word_char c && word_chars rest
  end.

Definition identifier_shape (s : string) : bool :=
  match s with
  | EmptyString => false
  | String c rest => is_start_char c && word_chars rest
  end.

(** ** The report, as the spec words it *)







(** A connector that refuses every connection, as an unreachable
    server does. *)
Definition unreachable_driver : Driver unit :=
  {| drv_connect := fun _ st =>
       (Raised (mkExn MySQLError "Connection failed"), st);
     drv_cursor := fun st => (Returned tt, st);
     drv_execute := fun _ _ st => (Returned tt, st);
     drv_description := fun _ => None;
     drv_rowcount := fun _ => (-1)%Z;
     drv_fetchall := fun st => (Returned [], st);
     drv_fetchone := fun st => (Returned None, st);
     drv_commit := fun st => (Returned tt, st);
     drv_cursor_exit := fun st => (Returned tt, st);
     drv_conn_exit := fun st => (Returned tt, st) |}.

(** ** Environments *)

(** The three settings the check at the end of [get_db_config] wants. *)
Definition unset (env : Env) : Prop :=
  env "MYSQL_USER" = None \/
  env "MYSQL_PASSWORD" = None \/
  env "MYSQL_DATABASE" = None.

(** ** Proof steps for runs of the handlers *)

Ltac unfold_handlers :=
  unfold execute_sql, execute_sql_body, list_tables, list_tables_body,
    describe_table, describe_table_body, table_exists, table_exists_check,
    try_except, with_, bind, lift, ret, raise,
    connect, conn_exit, cursor, cursor_exit, execute, fetchall, fetchone,
    commit, description, rowcount, call, read in *.

Ltac open_session H :=
  let st := fresh "st" in
  let Hc := fresh "Hconnect" in
  let Hk := fresh "Hcursor" in
  destruct H as (st & Hc & Hk); cbn; rewrite Hc; cbn; rewrite Hk; cbn.

Ltac close_session H :=
  let st := fresh "st" in
  let Hc := fresh "Hcursor_exit" in
  let Hk := fresh "Hconn_exit" in
  destruct H as (st & Hc & Hk); cbn; rewrite Hc; cbn; rewrite Hk; cbn.

Ltac flatten_log := repeat rewrite <- app_assoc; cbn [app].

(** ** Settings, traces and the cells of a table list *)

(** A setting that is present and not the empty string. *)
Definition is_set (env : Env) (k : string) : bool :=
  match env k with
  | Some v => negb (v =? "")
  | None => false
  end.

(** The keys [get_db_config] always writes, in the order of the dict
    literal. *)
Definition base_keys : list string :=
  [ "host"; "port"; "user"; "password"; "database"; "charset";
    "collation"; "autocommit"; "sql_mode" ].

(** The sequences of boundary calls one [execute_sql] call can make. *)
Definition execute_sql_traces (config : Config) (query : string)
  : list (list Event) :=
  [ [EvConnect config];
    [EvConnect config; EvCursor; EvConnExit];
    [EvConnect config; EvCursor; EvExecute query None;
     EvCursorExit; EvConnExit];
    [EvConnect config; EvCursor; EvExecute query None; EvFetchall;
     EvCursorExit; EvConnExit];
    [EvConnect config; EvCursor; EvExecute query None; EvCommit;
     EvCursorExit; EvConnExit] ].

(** The same for [list_tables]. *)
Definition list_tables_traces (config : Config) : list (list Event) :=
  [ [EvConnect config];
    [EvConnect config; EvCursor; EvConnExit];
    [EvConnect config; EvCursor; EvExecute "SHOW TABLES" None;
     EvCursorExit; EvConnExit];
    [EvConnect config; EvCursor; EvExecute "SHOW TABLES" None; EvFetchall;
     EvCursorExit; EvConnExit] ].

(** The same for [describe_table]. *)
Definition describe_table_traces (config : Config) (table : string)
  : list (list Event) :=
  let describe := EvExecute ("DESCRIBE `" ++ table ++ "`") None in
  let count := EvExecute ("SELECT COUNT(*) FROM `" ++ table ++ "`") None in
  [ [EvConnect config];
    [EvConnect config; EvCursor; EvConnExit];
    [EvConnect config; EvCursor; describe; EvCursorExit; EvConnExit];
    [EvConnect config; EvCursor; describe; EvFetchall;
     EvCursorExit; EvConnExit];
    [EvConnect config; EvCursor; describe; EvFetchall; count;
     EvCursorExit; EvConnExit];
    [EvConnect config; EvCursor; describe; EvFetchall; count; EvFetchone;
     EvCursorExit; EvConnExit] ].


(** ** [main] *)

(** How [mcp.run()] ends: it returns, the process is interrupted
    (KeyboardInterrupt), or it raises. *)
Inductive ServerEnd : Type :=
| ServerReturned
| ServerInterrupted
| ServerRaised (e : Exn).

(** How [main] ends: it returns, or [exit(code)] leaves it. *)
Inductive ExitStatus : Type :=
| Returns
| SystemExit (code : Z).

(** The state of the process: the database, and what was printed. *)
Definition Process (St : Type) : Type := (St * list string)%type.

Section Main.

Variable py_int : string -> option Z.
Variable py_int_error : string -> string.
Context {St : Type}.
Variable drv : Driver St.

(** [mcp.run()], the FastMCP server loop. *)
Variable mcp_run : World (Process St) -> ServerEnd * World (Process St).

Definition on_database {A} (op : St -> Outcome A * St)
  : Process St -> Outcome A * Process St :=
  fun p => let (r, st') := op (fst p) in (r, (st', snd p)).

(** The connector, in a process that also prints. *)
Definition process_driver : Driver (Process St) :=
  {| drv_connect := fun c => on_database (drv_connect drv c);
     drv_cursor := on_database (drv_cursor drv);
     drv_execute := fun q ps => on_database (drv_execute drv q ps);
     drv_description := fun p => drv_description drv (fst p);
     drv_rowcount := fun p => drv_rowcount drv (fst p);
     drv_fetchall := on_database (drv_fetchall drv);
     drv_fetchone := on_database (drv_fetchone drv);
     drv_commit := on_database (drv_commit drv);
     drv_cursor_exit := on_database (drv_cursor_exit drv);
     drv_conn_exit := on_database (drv_conn_exit drv) |}.

(** The process after one more line was printed. *)
Definition printed (line : string) (w : World (Process St))
  : World (Process St) :=
  mkWorld (fst (w_db w), append (snd (w_db w)) line) (w_log w).

(** [print(line, flush=True)]. *)
Definition print (line : string) : M (Process St) unit :=
  fun w => (Returned tt, printed line w).

(** [version_result[0] if version_result else "Unknown"], as text. *)
Definition version_of (version_result : option Row) : string :=
  match version_result with
  | Some (c :: _) => str c
  | _ => "Unknown"
  end.

(** The part of the [try] block before [mcp.run()]. *)
Definition main_startup (env : Env) : M (Process St) unit :=
  config <- lift (get_db_config py_int py_int_error env) ;;
  with_ (connect process_driver config) (conn_exit process_driver) (fun _ =>
    with_ (cursor process_driver) (cursor_exit process_driver) (fun _ =>
      execute process_driver "SELECT VERSION()" None ;;;
      version_result <- fetchone process_driver ;;
      let version := version_of version_result in
      print ("Connected to MySQL " ++ version))).

(** The [except] clauses, in their order: ValueError, Error, then any
    other Exception; each one but the interrupt ends in [exit(1)]. *)
Definition main_except (e : Exn)
  : World (Process St) -> ExitStatus * World (Process St) :=
  fun w =>
    match exc_class e with
    | ValueError =>
        let (_, w') := print ("Configuration error: " ++ exc_text e) w in
        (SystemExit 1, w')
    | MySQLError =>
        let (_, w') := print ("MySQL connection error: " ++ exc_text e) w in
        (SystemExit 1, w')
    | OtherException =>
        let (_, w') := print ("Unexpected error: " ++ exc_text e) w in
        (SystemExit 1, w')
    end.

Definition main (env : Env)
  : World (Process St) -> ExitStatus * World (Process St) :=
  fun w =>
    match main_startup env w with
    | (Raised e, w1) => main_except e w1
    | (Returned _, w1) =>
        match mcp_run w1 with
        | (ServerReturned, w2) => (Returns, w2)
        | (ServerInterrupted, w2) =>
            let (_, w3) := print (nl ++ "Shutting down server...") w2 in
            (Returns, w3)
        | (ServerRaised e, w2) => main_except e w2
        end
    end.

End Main.

(** A server loop that returns at once, and one that is interrupted. *)
Definition idle_server {St} (w : World (Process St))
  : ServerEnd * World (Process St) := (ServerReturned, w).

Definition interrupted_server {St} (w : World (Process St))
  : ServerEnd * World (Process St) := (ServerInterrupted, w).

(** A server loop that raises [e]. *)
Definition failing_server {St} (e : Exn) (w : World (Process St))
  : ServerEnd * World (Process St) := (ServerRaised e, w).

(** The process before [main]: the script, nothing printed, nothing
    logged. *)
Definition process_of (m : Mock) : World (Process Mock) := mkWorld (m, []) [].

(** The answer to [SELECT VERSION()]. *)
Definition version_mock : Mock :=
  mkMock None None (Some [mkDesc "VERSION()" []]) [] (Some [CStr "8.0.33"])
    (-1).

(** The test settings with a port that is not a number. *)
Definition bad_port_env : Env := fun k =>
  if k =? "MYSQL_PORT" then Some "abc" else test_env k.

(** The test settings with a certificate, as in the tests. *)
Definition cert_env : Env := fun k =>
  if k =? "MYSQL_CERT" then Some "/path/to/cert.pem" else test_env k.

(** The test settings with the user set to the empty string. *)
Definition empty_user_env : Env := fun k =>
  if k =? "MYSQL_USER" then Some "" else test_env k.


(** DESCRIBE with a full row and then a row of two fields. *)
Definition short_row_mock : Mock :=
  mkMock None None None
    [ [CStr "id"; CStr "int(11)"; CStr "NO"; CStr "PRI"; CNone;
       CStr "auto_increment"];
      [CStr "name"; CStr "varchar(255)"] ]
    (Some [CInt 50]) (-1).

(** One cell with a comma, and the same text as two cells. *)
Definition comma_cell_mock : Mock :=
  mkMock None None (Some [mkDesc "name" []]) [[CStr "Doe,Jane"]] None (-1).

Definition two_cells_mock : Mock :=
  mkMock None None (Some [mkDesc "name" []]) [[CStr "Doe"; CStr "Jane"]]
    None (-1).

(** The scripted connector, except that closing the connection raises. *)
Definition closing_error_driver (e : Exn) : Driver Mock :=
  {| drv_connect := drv_connect mock_driver;
     drv_cursor := drv_cursor mock_driver;
     drv_execute := drv_execute mock_driver;
     drv_description := drv_description mock_driver;
     drv_rowcount := drv_rowcount mock_driver;
     drv_fetchall := drv_fetchall mock_driver;
     drv_fetchone := drv_fetchone mock_driver;
     drv_commit := drv_commit mock_driver;
     drv_cursor_exit := drv_cursor_exit mock_driver;
     drv_conn_exit := fun m => (Raised e, m) |}.

(** A SELECT over two rows, the first with a line feed in its cell. *)
Definition line_feed_mock : Mock :=
  mkMock None None (Some [mkDesc "note" []])
    [[CStr ("first" ++ nl ++ "second")]; [CStr "third"]] None (-1).

(** The server refuses a statement written on two lines and quotes it
    in its error text, line feed included. *)
Definition syntax_error_mock : Mock :=
  mkMock None
    (Some (mkExn MySQLError
             ("1064 (42000): You have an error in your SQL syntax near 'FORM" ++
              nl ++ "users' at line 1")))
    None [] None (-1).

(** Explore every way the connector can answer. *)
Ltac case_driver drv :=
  repeat match goal with
         | |- context [drv_connect drv ?c ?s] =>
             destruct (drv_connect drv c s) as [[[]|?] ?] eqn:?; cbn
         | |- context [drv_cursor drv ?s] =>
             destruct (drv_cursor drv s) as [[[]|?] ?] eqn:?; cbn
         | |- context [drv_execute drv ?q ?p ?s] =>
             destruct (drv_execute drv q p s) as [[[]|?] ?] eqn:?; cbn
         | |- context [drv_description drv ?s] =>
             destruct (drv_description drv s) as [[|? ?]|] eqn:?; cbn
         | |- context [drv_fetchall drv ?s] =>
             destruct (drv_fetchall drv s) as [[[|? ?]|?] ?] eqn:?; cbn
         | |- context [drv_fetchone drv ?s] =>
             destruct (drv_fetchone drv s) as [[?|?] ?] eqn:?; cbn
         | |- context [drv_commit drv ?s] =>
             destruct (drv_commit drv s) as [[[]|?] ?] eqn:?; cbn
         | |- context [drv_cursor_exit drv ?s] =>
             destruct (drv_cursor_exit drv s) as [[[]|?] ?] eqn:?; cbn
         | |- context [drv_conn_exit drv ?s] =>
             destruct (drv_conn_exit drv s) as [[[]|?] ?] eqn:?; cbn
         | |- context [describe_loop ?u ?l ?r] =>
             destruct (describe_loop u l r) as [?|?] eqn:?; cbn
         | |- context [exc_class ?x] => destruct (exc_class x) eqn:?; cbn
         end.

(** * Properties *)

(** ** Strings, lines and logs *)

Lemma commits_app (l1 l2 : list Event) :
  commits (l1 ++ l2) = (commits l1 + commits l2)%nat.
Proof. unfold commits. rewrite filter_app, length_app. reflexivity. Qed.

Lemma newline_free_app (s t : string) :
  newline_free (s ++ t) = newline_free s && newline_free t.
Proof.
  induction s as [|c s IH]; simpl; [reflexivity|].
  rewrite IH. apply andb_assoc.
Qed.

Lemma split_lines_newline_free (s : string) :
  newline_free s = true -> split_lines s = [s].
Proof.
  induction s as [|c s IH]; simpl; intros H; [reflexivity|].
  apply andb_true_iff in H. destruct H as [Hc Hs].
  apply negb_true_iff in Hc. rewrite Hc, (IH Hs). reflexivity.
Qed.

Lemma split_lines_app (s t : string) :
  newline_free s = true ->
  split_lines (s ++ nl ++ t) = s :: split_lines t.
Proof.
  induction s as [|c s IH]; simpl; intros H; [reflexivity|].
  apply andb_true_iff in H. destruct H as [Hc Hs].
  apply negb_true_iff in Hc.
  rewrite Hc. unfold nl in IH. simpl in IH. rewrite (IH Hs). reflexivity.
Qed.

(** Splitting a joined text on line feeds gives back the joined lines,
    as long as none of them holds a line feed of its own. *)
Lemma split_lines_join (lines : list string) :
  lines <> [] ->
  forallb newline_free lines = true ->
  split_lines (join nl lines) = lines.
Proof.
  induction lines as [|l rest IH]; intros Hne Hfree; [congruence|].
  simpl in Hfree. apply andb_true_iff in Hfree. destruct Hfree as [Hl Hrest].
  destruct rest as [|l' rest'].
  - simpl. apply split_lines_newline_free. exact Hl.
  - change (join nl (l :: l' :: rest')) with (l ++ nl ++ join nl (l' :: rest')).
    rewrite split_lines_app by exact Hl.
    rewrite IH; [reflexivity | discriminate | exact Hrest].
Qed.

(** ** [execute_sql] *)

Section ExecuteSql.

Variable py_int : string -> option Z.
Variable py_int_error : string -> string.
Context {St : Type}.
Variable drv : Driver St.

(** C7: a statement that yields a column description but no rows gets
    the fixed no-results sentence, whatever the columns are; no header
    line is rendered.  The session is one execute and one fetchall. *)
Theorem execute_sql_no_rows :
  forall env query w config st1 st2 d ds st3 st4,
    get_db_config py_int py_int_error env = Returned config ->
    opens drv config (w_db w) st1 ->
    executes drv query st1 st2 ->
    drv_description drv st2 = Some (d :: ds) ->
    drv_fetchall drv st2 = (Returned [], st3) ->
    closes drv st3 st4 ->
    execute_sql py_int py_int_error drv env query w =
      (Returned "Query executed successfully. No results returned.",
       mkWorld st4
         (w_log w ++ [EvConnect config; EvCursor; EvExecute query None;
                      EvFetchall; EvCursorExit; EvConnExit])).
Proof.
  intros env query w config st1 st2 d ds st3 st4
    Hcfg Hopen Hexec Hdesc Hfetch Hclose.
  unfold_handlers.
  rewrite Hcfg. open_session Hopen.
  unfold executes in Hexec. rewrite Hexec. cbn.
  rewrite Hdesc. cbn. rewrite Hfetch. cbn.
  close_session Hclose. flatten_log. reflexivity.
Qed.

(** The run on a statement that returns rows, with the final world. *)
Lemma execute_sql_rows_run :
  forall env query w config st1 st2 d ds row rows st3 st4,
    get_db_config py_int py_int_error env = Returned config ->
    opens drv config (w_db w) st1 ->
    executes drv query st1 st2 ->
    drv_description drv st2 = Some (d :: ds) ->
    drv_fetchall drv st2 = (Returned (row :: rows), st3) ->
    closes drv st3 st4 ->
    execute_sql py_int py_int_error drv env query w =
      (Returned
         (join nl (join "," (map desc_name (d :: ds)) ::
                   map (fun r => join "," (map str r)) (row :: rows))),
       mkWorld st4
         (w_log w ++ [EvConnect config; EvCursor; EvExecute query None;
                      EvFetchall; EvCursorExit; EvConnExit])).
Proof.
  intros env query w config st1 st2 d ds row rows st3 st4
    Hcfg Hopen Hexec Hdesc Hfetch Hclose.
  unfold_handlers.
  rewrite Hcfg. open_session Hopen.
  unfold executes in Hexec. rewrite Hexec. cbn.
  rewrite Hdesc. cbn. rewrite Hfetch. cbn.
  close_session Hclose. flatten_log. reflexivity.
Qed.

(** Commas are no line feeds: a comma-joined line is free of line
    feeds exactly when its parts are. *)
Lemma newline_free_join_comma (parts : list string) :
  newline_free (join "," parts) = forallb newline_free parts.
Proof.
  induction parts as [|p rest IH]; [reflexivity|].
  destruct rest as [|q rest'].
  - cbn. rewrite andb_true_r. reflexivity.
  - change (join "," (p :: q :: rest'))
      with (p ++ "," ++ join "," (q :: rest')).
    rewrite newline_free_app, newline_free_app, IH. reflexivity.
Qed.

Lemma rows_newline_free (rows : list Row) :
  forallb (fun r => forallb (fun c => newline_free (str c)) r) rows = true ->
  forallb newline_free (map (fun r => join "," (map str r)) rows) = true.
Proof.
  induction rows as [|r rest IH]; intros Hfree; [reflexivity|].
  cbn in Hfree. apply andb_true_iff in Hfree. destruct Hfree as [Hr Hrest].
  cbn [map forallb]. rewrite (IH Hrest), andb_true_r.
  rewrite newline_free_join_comma. clear IH Hrest.
  induction r as [|c cs IHr]; [reflexivity|].
  cbn in Hr. apply andb_true_iff in Hr. destruct Hr as [Hc Hcs].
  cbn [map forallb]. rewrite Hc. apply IHr. exact Hcs.
Qed.

(** C5, as amended: a statement that yields N columns and M rows, M at
    least 1, with no line feed in any column name or cell text, is
    rendered as exactly M+1 lines of text: the first line is the
    comma-joined column names and each of the following M lines is the
    comma-joined [str] cells of one row, in order. *)
Theorem execute_sql_renders_rows :
  forall env query w config st1 st2 d ds row rows st3 st4,
    get_db_config py_int py_int_error env = Returned config ->
    opens drv config (w_db w) st1 ->
    executes drv query st1 st2 ->
    drv_description drv st2 = Some (d :: ds) ->
    drv_fetchall drv st2 = (Returned (row :: rows), st3) ->
    closes drv st3 st4 ->
    forallb newline_free (map desc_name (d :: ds)) = true ->
    forallb (fun r => forallb (fun c => newline_free (str c)) r)
      (row :: rows) = true ->
    exists out,
      fst (execute_sql py_int py_int_error drv env query w) = Returned out /\
      List.length (split_lines out) = S (List.length (row :: rows)) /\
      nth_error (split_lines out) 0 =
        Some (join "," (map desc_name (d :: ds))) /\
      (forall i r, nth_error (row :: rows) i = Some r ->
                   nth_error (split_lines out) (S i) =
                     Some (join "," (map str r))).
Proof.
  intros env query w config st1 st2 d ds row rows st3 st4
    Hcfg Hopen Hexec Hdesc Hfetch Hclose Hnames Hcells.
  set (header := join "," (map desc_name (d :: ds))).
  set (data := map (fun r => join "," (map str r)) (row :: rows)).
  assert (Hsplit : split_lines (join nl (header :: data)) = header :: data).
  { apply split_lines_join; [discriminate|].
    cbn [forallb]. subst header data.
    rewrite newline_free_join_comma, Hnames.
    rewrite (rows_newline_free (row :: rows) Hcells). reflexivity. }
  exists (join nl (header :: data)). split; [|split; [|split]].
  - rewrite (execute_sql_rows_run env query w config st1 st2 d ds row rows
               st3 st4 Hcfg Hopen Hexec Hdesc Hfetch Hclose).
    reflexivity.
  - rewrite Hsplit. subst data. cbn [List.length]. rewrite length_map.
    reflexivity.
  - rewrite Hsplit. reflexivity.
  - intros i r Hi. rewrite Hsplit. subst data.
    change (nth_error (map (fun r0 => join "," (map str r0)) (row :: rows)) i
            = Some (join "," (map str r))).
    unfold Row in *. rewrite nth_error_map, Hi. reflexivity.
Qed.

(** Read back with [split("\n")], as the tests do, the answer has those
    M+1 lines, provided no column name and no cell text holds a line
    feed: cells are not escaped. *)
Lemma execute_sql_rows_split_lines :
  forall env query w config st1 st2 d ds row rows st3 st4,
    get_db_config py_int py_int_error env = Returned config ->
    opens drv config (w_db w) st1 ->
    executes drv query st1 st2 ->
    drv_description drv st2 = Some (d :: ds) ->
    drv_fetchall drv st2 = (Returned (row :: rows), st3) ->
    closes drv st3 st4 ->
    let header := join "," (map desc_name (d :: ds)) in
    let data := map (fun r => join "," (map str r)) (row :: rows) in
    forallb newline_free (header :: data) = true ->
    exists out,
      fst (execute_sql py_int py_int_error drv env query w) = Returned out /\
      split_lines out = header :: data.
Proof.
  intros env query w config st1 st2 d ds row rows st3 st4
    Hcfg Hopen Hexec Hdesc Hfetch Hclose header data Hfree.
  exists (join nl (header :: data)). split.
  - rewrite (execute_sql_rows_run env query w config st1 st2 d ds row rows
               st3 st4 Hcfg Hopen Hexec Hdesc Hfetch Hclose).
    reflexivity.
  - apply split_lines_join; [discriminate | exact Hfree].
Qed.

(** C6: a statement that yields no column description makes the handler
    commit exactly once, after the execute, whatever happens afterwards;
    when the commit and the exits return, the answer is the sentence
    around the row count the cursor reports, which for row count 1 reads
    "Query executed successfully. 1 rows affected.". *)
Theorem execute_sql_commits_once :
  forall env query w config st1 st2,
    get_db_config py_int py_int_error env = Returned config ->
    opens drv config (w_db w) st1 ->
    executes drv query st1 st2 ->
    absent (drv_description drv st2) = true ->
    w_log (snd (execute_sql py_int py_int_error drv env query w)) =
      (w_log w ++ [EvConnect config; EvCursor; EvExecute query None;
                   EvCommit; EvCursorExit; EvConnExit])%list /\
    commits (w_log (snd (execute_sql py_int py_int_error drv env query w))) =
      S (commits (w_log w)) /\
    (forall st3 st4,
        drv_commit drv st2 = (Returned tt, st3) ->
        closes drv st3 st4 ->
        fst (execute_sql py_int py_int_error drv env query w) =
          Returned ("Query executed successfully. " ++
                    str_int (drv_rowcount drv st3) ++ " rows affected.") /\
        (drv_rowcount drv st3 = 1%Z ->
         fst (execute_sql py_int py_int_error drv env query w) =
           Returned "Query executed successfully. 1 rows affected.")).
Proof.
  intros env query w config st1 st2 Hcfg Hopen Hexec Habs.
  assert (Hbranch :
    forall (A : Type) (k1 : Desc -> list Desc -> A) (k2 : A),
      match drv_description drv st2 with
      | Some (d0 :: ds) => k1 d0 ds
      | _ => k2
      end = k2).
  { intros A k1 k2. destruct (drv_description drv st2) as [[|d0 ds]|];
      [reflexivity | discriminate | reflexivity]. }
  assert (Hlog : w_log (snd (execute_sql py_int py_int_error drv env query w)) =
            (w_log w ++ [EvConnect config; EvCursor; EvExecute query None;
                         EvCommit; EvCursorExit; EvConnExit])%list).
  { unfold_handlers.
    rewrite Hcfg. open_session Hopen.
    unfold executes in Hexec. rewrite Hexec. cbn.
    rewrite Hbranch.
    cbn. destruct (drv_commit drv st2) as [[[]|e] st3].
    all: cbn;
      destruct (drv_cursor_exit drv st3) as [[[]|e1] st4]; cbn;
      destruct (drv_conn_exit drv st4) as [[[]|e2] st5]; cbn;
      repeat match goal with
             | |- context [exc_class ?x] => destruct (exc_class x); cbn
             end;
      flatten_log; reflexivity. }
  split; [exact Hlog|]. split.
  - rewrite Hlog, commits_app. cbn. lia.
  - intros st3 st4 Hcommit Hclose.
    assert (Hrun : fst (execute_sql py_int py_int_error drv env query w) =
              Returned ("Query executed successfully. " ++
                        str_int (drv_rowcount drv st3) ++ " rows affected.")).
    { unfold_handlers.
      rewrite Hcfg. open_session Hopen.
      unfold executes in Hexec. rewrite Hexec. cbn.
      rewrite Hbranch. cbn. rewrite Hcommit. cbn.
      close_session Hclose. reflexivity. }
    split; [exact Hrun|].
    intros Hone. rewrite Hrun, Hone. reflexivity.
Qed.

(** What the block inside [try:] does when the connection is refused. *)
Lemma execute_sql_body_connect_fails :
  forall config query w e st1,
    drv_connect drv config (w_db w) = (Raised e, st1) ->
    execute_sql_body drv config query w =
      (Raised e, mkWorld st1 (w_log w ++ [EvConnect config])).
Proof.
  intros config query w e st1 Hconnect.
  unfold_handlers. rewrite Hconnect. reflexivity.
Qed.

(** What it does when the statement itself is refused: both exits run,
    then the error leaves the block. *)
Lemma execute_sql_body_execute_fails :
  forall config query w e st1 st2 st3,
    opens drv config (w_db w) st1 ->
    drv_execute drv query None st1 = (Raised e, st2) ->
    closes drv st2 st3 ->
    execute_sql_body drv config query w =
      (Raised e,
       mkWorld st3
         (w_log w ++ [EvConnect config; EvCursor; EvExecute query None;
                      EvCursorExit; EvConnExit])).
Proof.
  intros config query w e st1 st2 st3 Hopen Hexec Hclose.
  unfold_handlers. open_session Hopen. rewrite Hexec. cbn.
  close_session Hclose. flatten_log. reflexivity.
Qed.

(** C4, as amended: with the configuration resolved, the handler
    always returns text and never raises.  An error of the connector
    that leaves the [try] block, such as a refused connection or a
    refused statement, comes back as "MySQL error: " followed by the
    error text; any other exception as "Unexpected error: " followed by
    its text.  The text is passed through unchanged, so the message is
    one line exactly when the error text is. *)
Theorem execute_sql_returns_text :
  forall env query w config,
    get_db_config py_int py_int_error env = Returned config ->
    exists s w',
      execute_sql py_int py_int_error drv env query w = (Returned s, w') /\
      (forall e,
          fst (execute_sql_body drv config query w) = Raised e ->
          s = (match exc_class e with
               | MySQLError => "MySQL error: "
               | _ => "Unexpected error: "
               end) ++ exc_text e /\
          newline_free s = newline_free (exc_text e)) /\
      (forall e st1,
          drv_connect drv config (w_db w) = (Raised e, st1) ->
          exc_class e = MySQLError ->
          s = "MySQL error: " ++ exc_text e) /\
      (forall e st1 st2 st3,
          opens drv config (w_db w) st1 ->
          drv_execute drv query None st1 = (Raised e, st2) ->
          closes drv st2 st3 ->
          exc_class e = MySQLError ->
          s = "MySQL error: " ++ exc_text e).
Proof.
  intros env query w config Hcfg.
  assert (Hrun : execute_sql py_int py_int_error drv env query w =
                 try_except (execute_sql_body drv config query) w).
  { unfold execute_sql, bind, lift. rewrite Hcfg. reflexivity. }
  rewrite Hrun. unfold try_except.
  destruct (execute_sql_body drv config query w) as [[s0|e0] w'] eqn:Hbody.
  - exists s0, w'. split; [reflexivity|]. split; [|split].
    + intros e He. discriminate He.
    + intros e st1 Hconnect _.
      rewrite (execute_sql_body_connect_fails _ _ _ _ _ Hconnect) in Hbody.
      discriminate Hbody.
    + intros e st1 st2 st3 Hopen Hexec Hclose _.
      rewrite (execute_sql_body_execute_fails _ _ _ _ _ _ _ Hopen Hexec Hclose)
        in Hbody.
      discriminate Hbody.
  - destruct (exc_class e0) eqn:Hclass;
      eexists; exists w'; (split; [reflexivity|]); (split; [|split]).
    all: try (intros e He; cbn in He; injection He as <-; rewrite Hclass;
              split; [reflexivity|];
              rewrite newline_free_app; reflexivity).
    all: try (intros e st1 Hconnect Hc;
              rewrite (execute_sql_body_connect_fails _ _ _ _ _ Hconnect)
                in Hbody;
              injection Hbody as <- _; congruence).
    all: intros e st1 st2 st3 Hopen Hexec Hclose Hc;
      rewrite (execute_sql_body_execute_fails _ _ _ _ _ _ _ Hopen Hexec Hclose)
        in Hbody;
      injection Hbody as <- _; congruence.
Qed.

End ExecuteSql.

(** ** Configuration is resolved before the [try] *)

Section Configuration.

Variable py_int : string -> option Z.
Variable py_int_error : string -> string.
Variable unpack_error : nat -> string.
Context {St : Type}.
Variable drv : Driver St.

Lemma get_db_config_unset :
  forall env, unset env ->
    exists e,
      get_db_config py_int py_int_error env = Raised e /\
      exc_class e = ValueError.
Proof.
  intros env Hunset. unfold get_db_config.
  destruct (py_int (getenv_default env "MYSQL_PORT" "3306")) as [port|].
  2: { eexists. split; reflexivity. }
  unfold getenv.
  destruct (env "MYSQL_CERT") as [cert|]; cbn [cfg_truthy].
  1: destruct (cert =? "") eqn:Hcert; cbn [negb].
  all: destruct Hunset as [H|[H|H]]; rewrite H;
    destruct (env "MYSQL_USER") as [u|];
    destruct (env "MYSQL_PASSWORD") as [p|];
    destruct (env "MYSQL_DATABASE") as [d|];
    try discriminate H; cbn;
    repeat match goal with
           | |- context [negb (?x =? "")] => destruct (x =? ""); cbn
           end;
    eexists; split; reflexivity.
Qed.

(** C10: with user, password or database unset, each of the three
    handlers raises [ValueError] out of the handler, before anything is
    sent to the connector, instead of returning an error text. *)
Theorem handlers_raise_when_unconfigured :
  forall env query table w,
    unset env ->
    exists e,
      exc_class e = ValueError /\
      execute_sql py_int py_int_error drv env query w = (Raised e, w) /\
      list_tables py_int py_int_error drv env w = (Raised e, w) /\
      describe_table py_int py_int_error unpack_error drv env table w =
        (Raised e, w).
Proof.
  intros env query table w Hunset.
  destruct (get_db_config_unset env Hunset) as (e & Hraise & Hclass).
  exists e. split; [exact Hclass|].
  unfold execute_sql, list_tables,
    describe_table, bind, lift.
  rewrite Hraise. repeat split; reflexivity.
Qed.

End Configuration.

(** ** [describe_table] *)

Section DescribeTable.

Variable py_int : string -> option Z.
Variable py_int_error : string -> string.
Variable unpack_error : nat -> string.
Context {St : Type}.
Variable drv : Driver St.





Local Arguments describe_loop : simpl never.


(** Whatever the table name is, once the session is open the handler
    sends DESCRIBE with the name spliced between backticks: nothing
    looks at the name before. *)
Lemma describe_table_sends_describe :
  forall env table w config st1,
    get_db_config py_int py_int_error env = Returned config ->
    opens drv config (w_db w) st1 ->
    exists later,
      w_log (snd (describe_table py_int py_int_error unpack_error drv
                    env table w)) =
        (w_log w ++
         [EvConnect config; EvCursor;
          EvExecute ("DESCRIBE `" ++ table ++ "`") None] ++ later)%list.
Proof.
  intros env table w config st1 Hcfg Hopen.
  unfold_handlers.
  rewrite Hcfg. open_session Hopen.
  repeat match goal with
         | |- context [drv_execute drv ?q None ?s] =>
             destruct (drv_execute drv q None s) as [[[]|?] ?]; cbn
         | |- context [drv_fetchall drv ?s] =>
             destruct (drv_fetchall drv s) as [[[|? ?]|?] ?]; cbn
         | |- context [describe_loop ?u ?l ?r] =>
             destruct (describe_loop u l r) as [?|?]; cbn
         | |- context [drv_fetchone drv ?s] =>
             destruct (drv_fetchone drv s) as [[?|?] ?]; cbn
         | |- context [drv_cursor_exit drv ?s] =>
             destruct (drv_cursor_exit drv s) as [[[]|?] ?]; cbn
         | |- context [drv_conn_exit drv ?s] =>
             destruct (drv_conn_exit drv s) as [[[]|?] ?]; cbn
         | |- context [exc_class ?x] => destruct (exc_class x); cbn
         end.
  all: flatten_log; eexists; reflexivity.
Qed.

End DescribeTable.

(** ** The existence guard *)

Section ExistenceGuard.

Context {St : Type}.
Variable drv : Driver St.

(** Under [database_errors_only], whatever leaves the check is a
    database error. *)
Lemma table_exists_check_raises_database_error :
  forall name config w e w',
    database_errors_only drv ->
    table_exists_check drv name config w = (Raised e, w') ->
    exc_class e = MySQLError.
Proof.
  intros name config w e w' (Hconn & Hcur & Hexe & Hone & Hcx & Hnx).
  unfold_handlers.
  destruct (drv_connect drv config (w_db w)) as [[[]|e1] st1] eqn:E1; cbn.
  2: { intros H; inversion H; subst. eapply Hconn; eassumption. }
  destruct (drv_cursor drv st1) as [[[]|e2] st2] eqn:E2; cbn.
  2: { destruct (drv_conn_exit drv st2) as [[[]|e3] st3] eqn:E3; cbn;
       intros H; inversion H; subst;
       [eapply Hcur | eapply Hnx]; eassumption. }
  destruct (drv_execute drv "SHOW TABLES LIKE %s" (Some [CStr name]) st2)
    as [[[]|e3] st3] eqn:E3; cbn.
  1: destruct (drv_fetchone drv st3) as [[r|e4] st4] eqn:E4; cbn.
  all: match goal with
       | |- context [drv_cursor_exit drv ?s] =>
           destruct (drv_cursor_exit drv s) as [[[]|e5] st5] eqn:E5; cbn
       end.
  all: match goal with
       | |- context [drv_conn_exit drv ?s] =>
           destruct (drv_conn_exit drv s) as [[[]|e6] st6] eqn:E6; cbn
       end.
  all: intros H; inversion H; subst.
  all: first [ eapply Hnx; eassumption | eapply Hcx; eassumption
             | eapply Hone; eassumption | eapply Hexe; eassumption ].
Qed.

(** C3: when the check fails with a database error, at the connection
    or anywhere later, [table_exists] returns false and raises nothing;
    with a connector that raises only database errors it never raises. *)
Theorem table_exists_fails_closed :
  forall name config w,
    (forall e w1,
        table_exists_check drv name config w = (Raised e, w1) ->
        exc_class e = MySQLError ->
        table_exists drv name config w = (Returned false, w1)) /\
    (forall e st1,
        drv_connect drv config (w_db w) = (Raised e, st1) ->
        exc_class e = MySQLError ->
        table_exists drv name config w =
          (Returned false, mkWorld st1 (w_log w ++ [EvConnect config]))) /\
    (database_errors_only drv ->
     exists b w',
       table_exists drv name config w = (Returned b, w') /\
       (forall e, fst (table_exists_check drv name config w) = Raised e ->
                  b = false)).
Proof.
  intros name config w. split; [|split].
  - intros e w1 Hcheck Hclass. unfold table_exists.
    rewrite Hcheck, Hclass. reflexivity.
  - intros e st1 Hconnect Hclass. unfold table_exists.
    assert (Hcheck : table_exists_check drv name config w =
              (Raised e, mkWorld st1 (w_log w ++ [EvConnect config]))).
    { unfold_handlers. rewrite Hconnect. reflexivity. }
    rewrite Hcheck, Hclass. reflexivity.
  - intros Honly. unfold table_exists.
    destruct (table_exists_check drv name config w) as [[b|e] w'] eqn:Hcheck.
    + exists b, w'. split; [reflexivity|]. intros e He. discriminate He.
    + rewrite (table_exists_check_raises_database_error _ _ _ _ _ Honly Hcheck).
      exists false, w'. split; reflexivity.
Qed.

(** The answer of the guard when the check goes through: true exactly
    when [fetchone] hands back a row. *)
Lemma table_exists_answer :
  forall name config w st1 st2 row st3 st4,
    opens drv config (w_db w) st1 ->
    drv_execute drv "SHOW TABLES LIKE %s" (Some [CStr name]) st1
      = (Returned tt, st2) ->
    drv_fetchone drv st2 = (Returned row, st3) ->
    closes drv st3 st4 ->
    table_exists drv name config w =
      (Returned (match row with
                 | Some _ => true
                 | None => false
                 end),
       mkWorld st4
         (w_log w ++
          [EvConnect config; EvCursor;
           EvExecute "SHOW TABLES LIKE %s" (Some [CStr name]);
           EvFetchone; EvCursorExit; EvConnExit])).
Proof.
  intros name config w st1 st2 row st3 st4 Hopen Hexec Hone Hclose.
  unfold_handlers. open_session Hopen. rewrite Hexec. cbn.
  rewrite Hone. cbn. close_session Hclose. flatten_log. reflexivity.
Qed.

(** The guard binds the name as a parameter: the statement text is the
    same for every name. *)
Lemma table_exists_is_parameterized :
  forall name config w st1 st2,
    opens drv config (w_db w) st1 ->
    drv_execute drv "SHOW TABLES LIKE %s" (Some [CStr name]) st1
      = (Returned tt, st2) ->
    exists later,
      w_log (snd (table_exists drv name config w)) =
        (w_log w ++
         [EvConnect config; EvCursor;
          EvExecute "SHOW TABLES LIKE %s" (Some [CStr name])] ++ later)%list.
Proof.
  intros name config w st1 st2 Hopen Hexec.
  unfold_handlers. open_session Hopen. rewrite Hexec. cbn.
  repeat match goal with
         | |- context [drv_fetchone drv ?s] =>
             destruct (drv_fetchone drv s) as [[?|?] ?]; cbn
         | |- context [drv_cursor_exit drv ?s] =>
             destruct (drv_cursor_exit drv s) as [[[]|?] ?]; cbn
         | |- context [drv_conn_exit drv ?s] =>
             destruct (drv_conn_exit drv s) as [[[]|?] ?]; cbn
         | |- context [exc_class ?x] => destruct (exc_class x); cbn
         end.
  all: flatten_log; eexists; reflexivity.
Qed.

End ExistenceGuard.

(** ** The identifier rule *)

Lemma start_char_word_not_digit (c : ascii) :
  is_start_char c = is_word_char c && negb (is_digit c).
Proof. destruct c as [[] [] [] [] [] [] [] []]; reflexivity. Qed.

Lemma word_chars_forallb (s : string) :
  word_chars s = forallb is_word_char (list_ascii_of_string s).
Proof.
  induction s as [|c s IH]; cbn; [reflexivity|]. rewrite IH. reflexivity.
Qed.

(** The rule and the shape of the data model accept the same names. *)
Lemma validate_table_name_shape (s : string) :
  validate_table_name s =
    identifier_shape s && (String.length s <=? 64)%nat.
Proof.
  unfold validate_table_name.
  destruct s as [|c s]; [reflexivity|].
  cbn [String.eqb identifier_shape starts_with_digit list_ascii_of_string
         existsb].
  replace (String c s =? "") with false by reflexivity.
  rewrite start_char_word_not_digit, word_chars_forallb.
  rewrite Nat.ltb_antisym.
  destruct (String.length (String c s) <=? 64)%nat; cbn [negb];
    [|rewrite andb_false_r; reflexivity].
  rewrite andb_true_r.
  destruct (is_word_char c); cbn [negb orb andb].
  - assert (Hneg : existsb (fun c0 => negb (is_word_char c0))
                     (list_ascii_of_string s) =
                   negb (forallb is_word_char (list_ascii_of_string s))).
    { induction (list_ascii_of_string s) as [|a l IH]; cbn; [reflexivity|].
      rewrite IH. destruct (is_word_char a); reflexivity. }
    rewrite Hneg.
    destruct (forallb is_word_char (list_ascii_of_string s));
      destruct (is_digit c); reflexivity.
  - reflexivity.
Qed.

(** C2: the validator returns false exactly for the empty string, a
    name longer than 64 bytes, a name that starts with a digit, or a
    name with a character outside [[A-Za-z0-9_$]]; so every name of
    length 1 to 64 of the shape [[A-Za-z_$][A-Za-z0-9_$]*] is accepted,
    a leading underscore or dollar included, reserved words too. *)
Theorem validate_table_name_rule :
  forall s,
    (validate_table_name s = false <->
       s = "" \/
       (64 < String.length s)%nat \/
       starts_with_digit s = true \/
       exists c, In c (list_ascii_of_string s) /\ is_word_char c = false) /\
    ((1 <= String.length s <= 64)%nat ->
     identifier_shape s = true ->
     validate_table_name s = true).
Proof.
  intros s. split.
  - unfold validate_table_name.
    destruct (s =? "") eqn:Hempty.
    { split; [|reflexivity]. intros _. left.
      apply String.eqb_eq. exact Hempty. }
    assert (Hne : s <> "") by (apply String.eqb_neq; exact Hempty).
    destruct (64 <? String.length s)%nat eqn:Hlen.
    { split; [|reflexivity]. intros _. right. left.
      apply Nat.ltb_lt. exact Hlen. }
    apply Nat.ltb_ge in Hlen.
    destruct (existsb (fun c => negb (is_word_char c))
                (list_ascii_of_string s)) eqn:Hbad.
    { split; [|reflexivity]. intros _. right. right. right.
      apply existsb_exists in Hbad. destruct Hbad as (c & Hin & Hc).
      exists c. split; [exact Hin|]. apply negb_true_iff. exact Hc. }
    destruct (starts_with_digit s) eqn:Hdigit.
    { split; [|reflexivity]. intros _. right. right. left. reflexivity. }
    split; [discriminate|].
    intros [H|[H|[H|(c & Hin & Hc)]]].
    + contradiction.
    + lia.
    + discriminate H.
    + assert (Hex : existsb (fun c => negb (is_word_char c))
                      (list_ascii_of_string s) = true).
      { apply existsb_exists. exists c. split; [exact Hin|].
        rewrite Hc. reflexivity. }
      rewrite Hex in Hbad. discriminate Hbad.
  - intros [_ Hlen] Hshape.
    rewrite validate_table_name_shape, Hshape.
    apply Nat.leb_le in Hlen. rewrite Hlen. reflexivity.
Qed.

(** The names the tests of the repository expect to pass, and to fail. *)
Lemma validate_table_name_test_vectors :
  forallb validate_table_name
    [ "users"; "user_profiles"; "UserProfiles"; "table123";
      "_private_table"; "$system_table"; "a";
      "table_with_underscores_123"; "select"; py_mul "a" 64 ] = true /\
  forallb (fun s => negb (validate_table_name s))
    [ ""; "123table"; "table-name"; "table name"; "table.name";
      "table;DROP TABLE users;--"; "table`"; "table'";
      "table" ++ String (ascii_of_nat 34) EmptyString; "table()";
      py_mul "a" 65; "table@name"; "table#name" ] = true.
Proof. split; vm_compute; reflexivity. Qed.

(** ** Runs on the scripted connector *)

(** The embedding gives the answers the tests of the repository check
    on their scripted connector: a COUNT query, the table list, and a
    connector that raises on [connect]. *)
Lemma handlers_agree_with_tests :
  fst (execute_sql decimal_int int_error_text mock_driver test_env
         "SELECT COUNT(*) as count FROM users"
         (world_of (mkMock None None (Some [mkDesc "count" []])
                   [[CInt 5]] None (-1)))) =
    Returned ("count" ++ nl ++ "5") /\
  fst (list_tables decimal_int int_error_text mock_driver test_env
         (world_of show_tables_mock)) =
    Returned ("Available tables:" ++ nl ++ "- users" ++ nl ++ "- products") /\
  fst (execute_sql decimal_int int_error_text mock_driver test_env
         "SELECT 1"
         (world_of (mkMock (Some (mkExn MySQLError "Connection timeout"))
                   None None [] None (-1)))) =
    Returned "MySQL error: Connection timeout" /\
  fst (list_tables decimal_int int_error_text mock_driver test_env
         (world_of (mkMock (Some (mkExn MySQLError "Access denied"))
                   None None [] None (-1)))) =
    Returned "MySQL error: Access denied" /\
  get_db_config decimal_int int_error_text test_env = Returned test_config.
Proof. repeat split; vm_compute; reflexivity. Qed.

(** C1 at ["invalid;DROP TABLE users;--"]: the name fails the identifier
    rule, yet [describe_table] opens a session and sends DESCRIBE with
    the name spliced in; what comes back is the server's error, and the
    text "Invalid table name" is nowhere in it. *)
Theorem describe_table_invalid_name_reaches_database :
  let name := "invalid;DROP TABLE users;--" in
  let run := describe_table decimal_int int_error_text unpack_error_text
               mock_driver test_env name (world_of (unknown_table_mock name)) in
  let answer := "MySQL error: 1146 (42S02): Table " ++
                "'test_db.invalid;DROP TABLE users;--' doesn't exist" in
  validate_table_name name = false /\
  fst run = Returned answer /\
  w_log (snd run) =
    [ EvConnect test_config; EvCursor;
      EvExecute "DESCRIBE `invalid;DROP TABLE users;--`" None;
      EvCursorExit; EvConnExit ] /\
  contains "Invalid table name" answer = false.
Proof.
  cbv zeta. split; [|split; [|split]].
  - vm_compute. reflexivity.
  - vm_compute. reflexivity.
  - vm_compute. reflexivity.
  - vm_compute. reflexivity.
Qed.

(** C8 at ["nonexistent"]: the name passes the identifier rule and the
    table is absent, yet the first thing [describe_table] does is to
    send DESCRIBE.  When the server refuses it the answer is the
    server's error; when it yields no rows the answer is the sentence
    "not found or has no columns", not the "not found in the database"
    the tests expect. *)
Theorem describe_table_missing_table_runs_describe :
  let name := "nonexistent" in
  let refused := describe_table decimal_int int_error_text unpack_error_text
                   mock_driver test_env name
                   (world_of (unknown_table_mock name)) in
  let empty := describe_table decimal_int int_error_text unpack_error_text
                 mock_driver test_env name (world_of no_match_mock) in
  let error_text := "MySQL error: 1146 (42S02): Table " ++
                    "'test_db.nonexistent' doesn't exist" in
  let no_columns := "Table 'nonexistent' not found or has no columns." in
  let expected := "Table 'nonexistent' not found in the database" in
  validate_table_name name = true /\
  fst refused = Returned error_text /\
  statements (w_log (snd refused)) = ["DESCRIBE `nonexistent`"] /\
  fst empty = Returned no_columns /\
  statements (w_log (snd empty)) = ["DESCRIBE `nonexistent`"] /\
  contains expected error_text = false /\
  contains expected no_columns = false.
Proof.
  cbv zeta. repeat split; vm_compute; reflexivity.
Qed.

(** With nothing set in the environment [execute_sql] does not return
    a string, it raises. *)
Lemma execute_sql_unconfigured_raises :
  ~ exists s w',
      execute_sql decimal_int int_error_text mock_driver empty_env
        "SELECT 1" (world_of no_match_mock) = (Returned s, w').
Proof.
  intros (s & w' & Hrun). vm_compute in Hrun. discriminate Hrun.
Qed.

(** C4 as first stated fails: with the configuration resolved, a
    statement the server refuses with an error text of two lines is
    answered with a message of two lines, not one. *)
Lemma execute_sql_multi_line_error :
  let text := "1064 (42000): You have an error in your SQL syntax near 'FORM" ++
              nl ++ "users' at line 1" in
  let run := execute_sql decimal_int int_error_text mock_driver test_env
               ("SELECT *" ++ nl ++ "FORM users")
               (world_of syntax_error_mock) in
  get_db_config decimal_int int_error_text test_env = Returned test_config /\
  fst run = Returned ("MySQL error: " ++ text) /\
  newline_free ("MySQL error: " ++ text) = false /\
  List.length (split_lines ("MySQL error: " ++ text)) = 2%nat.
Proof.
  cbv zeta. repeat split; vm_compute; reflexivity.
Qed.

(** C5 as first stated fails: two rows, the first with a line feed in
    its cell, are rendered as four lines of text, not three. *)
Lemma execute_sql_line_feed_in_cell :
  let run := execute_sql decimal_int int_error_text mock_driver test_env
               "SELECT note FROM memo" (world_of line_feed_mock) in
  let out := "note" ++ nl ++ "first" ++ nl ++ "second" ++ nl ++ "third" in
  drv_fetchall mock_driver line_feed_mock =
    (Returned [[CStr ("first" ++ nl ++ "second")]; [CStr "third"]],
     line_feed_mock) /\
  fst run = Returned out /\
  List.length (split_lines out) = 4%nat /\
  List.length (split_lines out) <>
    S (List.length (mock_fetchall line_feed_mock)).
Proof.
  cbv zeta. repeat split; try (vm_compute; reflexivity).
  vm_compute. discriminate.
Qed.

Lemma mock_opens (config : Config) (m : Mock) :
  mock_connect_error m = None -> opens mock_driver config m m.
Proof.
  intros H. exists m. cbn. unfold scripted. rewrite H. split; reflexivity.
Defined.

Lemma mock_closes (m : Mock) : closes mock_driver m m.
Proof. exists m. split; reflexivity. Defined.

Lemma execute_sql_returns_text_witness :
  get_db_config decimal_int int_error_text test_env = Returned test_config /\
  exists s w',
    execute_sql decimal_int int_error_text mock_driver test_env
      "SELECT 1" (world_of unreachable_mock) = (Returned s, w') /\
    s = "MySQL error: Connection failed".
Proof.
  split; [reflexivity|].
  destruct (execute_sql_returns_text decimal_int int_error_text mock_driver
              test_env "SELECT 1" (world_of unreachable_mock) test_config
              eq_refl)
    as (s & w' & Hrun & _ & Hconnect & _).
  exists s, w'. split; [exact Hrun|].
  exact (Hconnect (mkExn MySQLError "Connection failed") unreachable_mock
           eq_refl eq_refl).
Defined.

Lemma execute_sql_renders_rows_witness :
  get_db_config decimal_int int_error_text test_env = Returned test_config /\
  forallb (fun r => forallb (fun c => newline_free (str c)) r)
    (mock_fetchall show_tables_mock) = true /\
  exists out,
    fst (execute_sql decimal_int int_error_text mock_driver test_env
           "SHOW TABLES" (world_of show_tables_mock)) = Returned out /\
    out = "Tables_in_test_db" ++ nl ++ "users" ++ nl ++ "products" /\
    List.length (split_lines out) = 3%nat /\
    nth_error (split_lines out) 0 = Some "Tables_in_test_db" /\
    nth_error (split_lines out) 1 = Some "users" /\
    nth_error (split_lines out) 2 = Some "products".
Proof.
  split; [reflexivity|]. split; [reflexivity|].
  destruct (execute_sql_renders_rows decimal_int int_error_text mock_driver
              test_env "SHOW TABLES" (world_of show_tables_mock) test_config
              show_tables_mock show_tables_mock
              (mkDesc "Tables_in_test_db" []) []
              [CStr "users"] [[CStr "products"]]
              show_tables_mock show_tables_mock
              eq_refl (mock_opens test_config show_tables_mock eq_refl)
              eq_refl eq_refl eq_refl (mock_closes show_tables_mock)
              eq_refl eq_refl)
    as (out & Hout & Hlen & Hhead & Hrows).
  exists out. split; [exact Hout|]. split.
  { assert (Hrun : fst (execute_sql decimal_int int_error_text mock_driver
                          test_env "SHOW TABLES"
                          (world_of show_tables_mock)) =
                   Returned ("Tables_in_test_db" ++ nl ++ "users" ++ nl ++
                             "products")) by reflexivity.
    rewrite Hout in Hrun. injection Hrun as Hrun. exact Hrun. }
  split; [exact Hlen|]. split; [exact Hhead|]. split.
  - exact (Hrows 0%nat [CStr "users"] eq_refl).
  - exact (Hrows 1%nat [CStr "products"] eq_refl).
Defined.

Lemma execute_sql_commits_once_witness :
  absent (drv_description mock_driver insert_mock) = true /\
  commits (w_log (snd (execute_sql decimal_int int_error_text mock_driver
                         test_env "INSERT INTO users (name) VALUES ('x')"
                         (world_of insert_mock)))) = 1%nat /\
  fst (execute_sql decimal_int int_error_text mock_driver test_env
         "INSERT INTO users (name) VALUES ('x')" (world_of insert_mock)) =
    Returned "Query executed successfully. 1 rows affected.".
Proof.
  split; [reflexivity|].
  destruct (execute_sql_commits_once decimal_int int_error_text mock_driver
              test_env "INSERT INTO users (name) VALUES ('x')"
              (world_of insert_mock) test_config insert_mock insert_mock
              eq_refl (mock_opens test_config insert_mock eq_refl)
              eq_refl eq_refl)
    as (_ & Hcommits & Hout).
  split; [exact Hcommits|].
  exact (proj2 (Hout insert_mock insert_mock eq_refl (mock_closes insert_mock))
           eq_refl).
Defined.

Lemma execute_sql_no_rows_witness :
  drv_fetchall mock_driver empty_result_mock =
    (Returned [], empty_result_mock) /\
  fst (execute_sql decimal_int int_error_text mock_driver test_env
         "SELECT id, name FROM users WHERE id < 0"
         (world_of empty_result_mock)) =
    Returned "Query executed successfully. No results returned.".
Proof.
  split; [reflexivity|].
  rewrite (execute_sql_no_rows decimal_int int_error_text mock_driver
             test_env "SELECT id, name FROM users WHERE id < 0"
             (world_of empty_result_mock) test_config
             empty_result_mock empty_result_mock
             (mkDesc "id" []) [mkDesc "name" []]
             empty_result_mock empty_result_mock
             eq_refl (mock_opens test_config empty_result_mock eq_refl)
             eq_refl eq_refl eq_refl (mock_closes empty_result_mock)).
  reflexivity.
Defined.

Lemma handlers_raise_when_unconfigured_witness :
  unset empty_env /\
  exists e,
    exc_class e = ValueError /\
    execute_sql decimal_int int_error_text mock_driver empty_env
      "SELECT 1" (world_of no_match_mock) =
      (Raised e, world_of no_match_mock) /\
    list_tables decimal_int int_error_text mock_driver empty_env
      (world_of no_match_mock) = (Raised e, world_of no_match_mock) /\
    describe_table decimal_int int_error_text unpack_error_text mock_driver
      empty_env "users" (world_of no_match_mock) =
      (Raised e, world_of no_match_mock).
Proof.
  assert (Hunset : unset empty_env) by (left; reflexivity).
  split; [exact Hunset|].
  exact (handlers_raise_when_unconfigured decimal_int int_error_text
           unpack_error_text mock_driver empty_env "SELECT 1" "users"
           (world_of no_match_mock) Hunset).
Defined.


Lemma unreachable_database_errors_only :
  database_errors_only unreachable_driver.
Proof.
  repeat split; cbn; intros; try discriminate;
    match goal with
    | H : (Raised _, _) = (Raised _, _) |- _ => inversion H; reflexivity
    end.
Defined.

Lemma table_exists_fails_closed_witness :
  database_errors_only unreachable_driver /\
  table_exists unreachable_driver "users" test_config (mkWorld tt []) =
    (Returned false, mkWorld tt [EvConnect test_config]) /\
  exists b w',
    table_exists unreachable_driver "users" test_config (mkWorld tt []) =
      (Returned b, w').
Proof.
  split; [exact unreachable_database_errors_only|].
  destruct (table_exists_fails_closed unreachable_driver "users" test_config
              (mkWorld tt [])) as (_ & Hconnect & Hnever).
  split.
  - exact (Hconnect (mkExn MySQLError "Connection failed") tt
             eq_refl eq_refl).
  - destruct (Hnever unreachable_database_errors_only) as (b & w' & Hrun & _).
    exists b, w'. exact Hrun.
Defined.

Lemma validate_table_name_rule_witness :
  ((1 <= String.length "_private_table" <= 64)%nat /\
   identifier_shape "_private_table" = true /\
   validate_table_name "_private_table" = true) /\
  validate_table_name "123table" = false.
Proof.
  split.
  - assert (Hlen : (1 <= String.length "_private_table" <= 64)%nat)
      by (cbn; lia).
    split; [exact Hlen|]. split; [reflexivity|].
    exact (proj2 (validate_table_name_rule "_private_table") Hlen eq_refl).
  - apply (proj1 (validate_table_name_rule "123table")).
    right. right. left. reflexivity.
Defined.

(** * More of [server.py] *)

(** ** [get_db_config] *)

Section GetDbConfig.

Variable py_int : string -> option Z.
Variable py_int_error : string -> string.

Ltac case_setting env k :=
  destruct (env k) as [[|? ?]|].

Ltac case_settings env :=
  unfold get_db_config, is_set, getenv in *;
  destruct (py_int (getenv_default env "MYSQL_PORT" "3306")) as [port|];
  case_setting env "MYSQL_USER";
  case_setting env "MYSQL_PASSWORD";
  case_setting env "MYSQL_DATABASE";
  case_setting env "MYSQL_CERT";
  cbn in *.

(** A configuration comes back exactly when the port text is an
    integer and user, password and database are set to something other
    than the empty string. *)
Theorem get_db_config_returns_iff :
  forall env,
    (exists config, get_db_config py_int py_int_error env = Returned config)
    <->
    (py_int (getenv_default env "MYSQL_PORT" "3306") <> None /\
     is_set env "MYSQL_USER" = true /\
     is_set env "MYSQL_PASSWORD" = true /\
     is_set env "MYSQL_DATABASE" = true).
Proof.
  intros env. split.
  - intros (config & Hcfg). case_settings env;
      try discriminate Hcfg; repeat split; congruence.
  - intros (Hport & Huser & Hpassword & Hdatabase).
    case_settings env;
      try discriminate; try congruence; eexists; reflexivity.
Qed.

(** Which error comes out: a port that is not an integer raises the
    [ValueError] of [int()] whatever else is set; otherwise a required
    setting that is unset or empty raises the missing-configuration
    [ValueError]. *)
Theorem get_db_config_errors :
  forall env,
    (py_int (getenv_default env "MYSQL_PORT" "3306") = None ->
     get_db_config py_int py_int_error env =
       Raised (mkExn ValueError
                 (py_int_error (getenv_default env "MYSQL_PORT" "3306")))) /\
    (py_int (getenv_default env "MYSQL_PORT" "3306") <> None ->
     is_set env "MYSQL_USER" && is_set env "MYSQL_PASSWORD" &&
       is_set env "MYSQL_DATABASE" = false ->
     get_db_config py_int py_int_error env =
       Raised (mkExn ValueError missing_config_message)).
Proof.
  intros env. split.
  - intros Hport. unfold get_db_config. rewrite Hport. reflexivity.
  - intros Hport Hmissing.
    case_settings env; try discriminate; try congruence; reflexivity.
Qed.

(** What a returned configuration holds: the three required settings as
    they are in the environment, the optional ones or their defaults,
    the parsed port, and [autocommit] always true. *)
Theorem get_db_config_lookup :
  forall env config,
    get_db_config py_int py_int_error env = Returned config ->
    config_get "user" config = getenv env "MYSQL_USER" /\
    config_get "password" config = getenv env "MYSQL_PASSWORD" /\
    config_get "database" config = getenv env "MYSQL_DATABASE" /\
    config_get "host" config =
      VStr (getenv_default env "MYSQL_HOST" "localhost") /\
    (exists port,
        py_int (getenv_default env "MYSQL_PORT" "3306") = Some port /\
        config_get "port" config = VInt port) /\
    config_get "charset" config =
      VStr (getenv_default env "MYSQL_CHARSET" "utf8mb4") /\
    config_get "collation" config =
      VStr (getenv_default env "MYSQL_COLLATION" "utf8mb4_unicode_ci") /\
    config_get "sql_mode" config =
      VStr (getenv_default env "MYSQL_SQL_MODE" "TRADITIONAL") /\
    config_get "autocommit" config = VBool true.
Proof.
  intros env config Hcfg.
  case_settings env; try discriminate Hcfg;
    injection Hcfg as <-; cbn;
    repeat split; try reflexivity; eexists; split; reflexivity.
Qed.

(** The certificate path is passed on as [ssl_ca] exactly when
    MYSQL_CERT is set and not empty; a returned configuration has the
    nine fixed keys, then [ssl_ca] if any, and no entry is None. *)
Theorem get_db_config_keys :
  forall env config,
    get_db_config py_int py_int_error env = Returned config ->
    map fst config =
      (base_keys ++
       (if is_set env "MYSQL_CERT" then ["ssl_ca"] else []))%list /\
    config_get "ssl_ca" config =
      (if is_set env "MYSQL_CERT" then getenv env "MYSQL_CERT" else VNone) /\
    Forall (fun kv => cfg_is_none (snd kv) = false) config.
Proof.
  intros env config Hcfg.
  case_settings env; try discriminate Hcfg;
    injection Hcfg as <-; cbn;
    repeat split; try reflexivity; repeat constructor.
Qed.

End GetDbConfig.

(** ** The boundary calls of the handlers *)

Ltac pick_trace :=
  flatten_log; eexists; split; [reflexivity | cbn; auto 10].

Section Protocol.

Variable py_int : string -> option Z.
Variable py_int_error : string -> string.
Variable unpack_error : nat -> string.
Context {St : Type}.
Variable drv : Driver St.

Local Arguments describe_loop : simpl never.

(** Whatever the connector does, one [execute_sql] call makes one of
    five sequences of boundary calls: at most one statement, the query
    as given; a fetch or a commit but never both; and both exits once
    the cursor is open, the connection exit once the connection is. *)
Theorem execute_sql_protocol :
  forall env query w config,
    get_db_config py_int py_int_error env = Returned config ->
    exists events,
      w_log (snd (execute_sql py_int py_int_error drv env query w)) =
        (w_log w ++ events)%list /\
      In events (execute_sql_traces config query).
Proof.
  intros env query w config Hcfg.
  unfold_handlers. rewrite Hcfg. cbn.
  case_driver drv; pick_trace.
Qed.

(** One [list_tables] call makes one of four sequences: the only
    statement it ever sends is SHOW TABLES, it never commits, and it
    leaves through the exits of what it opened. *)
Theorem list_tables_protocol :
  forall env w config,
    get_db_config py_int py_int_error env = Returned config ->
    exists events,
      w_log (snd (list_tables py_int py_int_error drv env w)) =
        (w_log w ++ events)%list /\
      In events (list_tables_traces config).
Proof.
  intros env w config Hcfg.
  unfold_handlers. rewrite Hcfg. cbn.
  case_driver drv; pick_trace.
Qed.

(** One [describe_table] call makes one of six sequences: DESCRIBE
    first, the COUNT query only after a fetch of the structure, never a
    commit, and the exits of what it opened on every way out. *)
Theorem describe_table_protocol :
  forall env table w config,
    get_db_config py_int py_int_error env = Returned config ->
    exists events,
      w_log (snd (describe_table py_int py_int_error unpack_error drv
                    env table w)) =
        (w_log w ++ events)%list /\
      In events (describe_table_traces config table).
Proof.
  intros env table w config Hcfg.
  unfold_handlers. rewrite Hcfg. cbn.
  case_driver drv; pick_trace.
Qed.

End Protocol.

(** ** Answers of [list_tables] and [describe_table] *)

Section Answers.

Variable py_int : string -> option Z.
Variable py_int_error : string -> string.
Variable unpack_error : nat -> string.
Context {St : Type}.
Variable drv : Driver St.

Local Arguments describe_loop : simpl never.



(** Once the configuration has resolved, [list_tables] and
    [describe_table] always return text; a refused connection is
    reported with the prefix of its class, and [connect] is then the
    only call that was made. *)
Theorem resource_handlers_return_text :
  forall env table w config,
    get_db_config py_int py_int_error env = Returned config ->
    (exists s w', list_tables py_int py_int_error drv env w
                  = (Returned s, w')) /\
    (exists s w', describe_table py_int py_int_error unpack_error drv
                    env table w = (Returned s, w')) /\
    (forall e st1,
        drv_connect drv config (w_db w) = (Raised e, st1) ->
        let message :=
          (match exc_class e with
           | MySQLError => "MySQL error: "
           | _ => "Unexpected error: "
           end) ++ exc_text e in
        let after := mkWorld st1 (w_log w ++ [EvConnect config]) in
        list_tables py_int py_int_error drv env w
          = (Returned message, after) /\
        describe_table py_int py_int_error unpack_error drv env table w
          = (Returned message, after)).
Proof.
  intros env table w config Hcfg. split; [|split].
  - unfold list_tables, bind, lift. rewrite Hcfg. unfold try_except.
    destruct (list_tables_body drv config w) as [[s|e] w'].
    + exists s, w'. reflexivity.
    + destruct (exc_class e); eexists; exists w'; reflexivity.
  - unfold describe_table, bind, lift. rewrite Hcfg. unfold try_except.
    destruct (describe_table_body unpack_error drv config table w)
      as [[s|e] w'].
    + exists s, w'. reflexivity.
    + destruct (exc_class e); eexists; exists w'; reflexivity.
  - intros e st1 Hconnect message after. subst message after.
    unfold_handlers. rewrite Hcfg. cbn. rewrite Hconnect. cbn.
    destruct (exc_class e); split; reflexivity.
Qed.

(** When DESCRIBE gives no row, [describe_table] answers that the table
    was not found or has no columns, and the row count is never asked
    for. *)
Theorem describe_table_no_columns :
  forall env table w config st1 st2 st3 st4,
    get_db_config py_int py_int_error env = Returned config ->
    opens drv config (w_db w) st1 ->
    executes drv ("DESCRIBE `" ++ table ++ "`") st1 st2 ->
    drv_fetchall drv st2 = (Returned [], st3) ->
    closes drv st3 st4 ->
    describe_table py_int py_int_error unpack_error drv env table w =
      (Returned ("Table '" ++ table ++ "' not found or has no columns."),
       mkWorld st4
         (w_log w ++
          [EvConnect config; EvCursor;
           EvExecute ("DESCRIBE `" ++ table ++ "`") None; EvFetchall;
           EvCursorExit; EvConnExit])).
Proof.
  intros env table w config st1 st2 st3 st4 Hcfg Hopen Hexec Hfetch Hclose.
  unfold_handlers. rewrite Hcfg. open_session Hopen.
  unfold executes in Hexec. cbn in Hexec. rewrite Hexec. cbn.
  rewrite Hfetch. cbn. close_session Hclose. flatten_log. reflexivity.
Qed.

Lemma unpack6_wrong_length (col : Row) :
  List.length col <> 6%nat ->
  unpack6 unpack_error col =
    Raised (mkExn ValueError (unpack_error (List.length col))).
Proof.
  intros Hlen.
  destruct col as [|a [|b [|c [|d [|e [|f [|g rest]]]]]]];
    try reflexivity.
  cbn in Hlen. congruence.
Qed.

Lemma unpack6_right_length (col : Row) :
  List.length col = 6%nat ->
  exists fields, unpack6 unpack_error col = Returned fields.
Proof.
  intros Hlen.
  destruct col as [|a [|b [|c [|d [|e [|f [|g rest]]]]]]];
    try discriminate Hlen.
  eexists. reflexivity.
Qed.

(** The loop stops at the first row that does not have six fields. *)
Lemma describe_loop_wrong_length (good : list Row) :
  forall bad rest result,
    Forall (fun col => List.length col = 6%nat) good ->
    List.length bad <> 6%nat ->
    describe_loop unpack_error (good ++ bad :: rest) result =
      Raised (mkExn ValueError (unpack_error (List.length bad))).
Proof.
  induction good as [|col good IH]; intros bad rest result Hgood Hbad.
  - cbn [app]. unfold describe_loop.
    rewrite (unpack6_wrong_length bad Hbad). reflexivity.
  - inversion Hgood as [|? ? Hcol Hgood']; subst.
    destruct (unpack6_right_length col Hcol) as (fields & Hfields).
    cbn [app]. unfold describe_loop. fold (describe_loop unpack_error).
    rewrite Hfields. destruct fields as [[[[[? ?] ?] ?] ?] ?].
    apply IH; assumption.
Qed.

(** A DESCRIBE row that does not have six fields makes
    [describe_table] answer "Unexpected error: " with the text of the
    unpacking error; the rows before it are dropped and the row count is
    never asked for. *)
Theorem describe_table_wrong_row :
  forall env table w config st1 st2 good bad rest st3 st4,
    get_db_config py_int py_int_error env = Returned config ->
    opens drv config (w_db w) st1 ->
    executes drv ("DESCRIBE `" ++ table ++ "`") st1 st2 ->
    drv_fetchall drv st2 = (Returned (good ++ bad :: rest)%list, st3) ->
    Forall (fun col => List.length col = 6%nat) good ->
    List.length bad <> 6%nat ->
    closes drv st3 st4 ->
    describe_table py_int py_int_error unpack_error drv env table w =
      (Returned ("Unexpected error: " ++ unpack_error (List.length bad)),
       mkWorld st4
         (w_log w ++
          [EvConnect config; EvCursor;
           EvExecute ("DESCRIBE `" ++ table ++ "`") None; EvFetchall;
           EvCursorExit; EvConnExit])).
Proof.
  intros env table w config st1 st2 good bad rest st3 st4
    Hcfg Hopen Hexec Hfetch Hgood Hbad Hclose.
  unfold_handlers. rewrite Hcfg. open_session Hopen.
  unfold executes in Hexec. cbn in Hexec. rewrite Hexec. cbn.
  rewrite Hfetch. cbn.
  destruct (good ++ bad :: rest)%list as [|col cols] eqn:Hrows.
  { destruct good; discriminate Hrows. }
  rewrite <- Hrows.
  rewrite (describe_loop_wrong_length good bad rest _ Hgood Hbad). cbn.
  close_session Hclose. flatten_log. reflexivity.
Qed.

End Answers.

(** ** More on [execute_sql] *)

Section ExecuteSqlEdges.

Variable py_int : string -> option Z.
Variable py_int_error : string -> string.
Context {St : Type}.
Variable drv : Driver St.

(** An error raised while the connection is closed replaces whatever
    the call had to answer: rows, the affected-row sentence or an
    earlier error. *)
Theorem execute_sql_exit_error_wins :
  forall env query w config st1 e,
    get_db_config py_int py_int_error env = Returned config ->
    drv_connect drv config (w_db w) = (Returned tt, st1) ->
    (forall st, exists st', drv_conn_exit drv st = (Raised e, st')) ->
    fst (execute_sql py_int py_int_error drv env query w) =
      Returned ((match exc_class e with
                 | MySQLError => "MySQL error: "
                 | _ => "Unexpected error: "
                 end) ++ exc_text e).
Proof.
  intros env query w config st1 e Hcfg Hconnect Hexit.
  unfold_handlers. rewrite Hcfg. cbn. rewrite Hconnect. cbn.
  repeat match goal with
         | |- context [drv_conn_exit drv ?s] =>
             let st' := fresh "st" in
             let Hr := fresh "Hraise" in
             destruct (Hexit s) as (st' & Hr); rewrite Hr; cbn
         | |- context [drv_cursor drv ?s] =>
             destruct (drv_cursor drv s) as [[[]|?] ?]; cbn
         | |- context [drv_execute drv ?q ?p ?s] =>
             destruct (drv_execute drv q p s) as [[[]|?] ?]; cbn
         | |- context [drv_description drv ?s] =>
             destruct (drv_description drv s) as [[|? ?]|]; cbn
         | |- context [drv_fetchall drv ?s] =>
             destruct (drv_fetchall drv s) as [[[|? ?]|?] ?]; cbn
         | |- context [drv_commit drv ?s] =>
             destruct (drv_commit drv s) as [[[]|?] ?]; cbn
         | |- context [drv_cursor_exit drv ?s] =>
             destruct (drv_cursor_exit drv s) as [[[]|?] ?]; cbn
         end.
  all: destruct (exc_class e); reflexivity.
Qed.

(** Cells are joined without escaping: a row with the one cell
    ["a,b"] and a row with the two cells ["a"] and ["b"] give the same
    answer. *)
Theorem execute_sql_comma_ambiguity :
  forall env config d ds a b rows,
  forall query w st1 st2 st3 st4,
  forall query' w' st1' st2' st3' st4',
    get_db_config py_int py_int_error env = Returned config ->
    opens drv config (w_db w) st1 ->
    executes drv query st1 st2 ->
    drv_description drv st2 = Some (d :: ds) ->
    drv_fetchall drv st2 = (Returned ([CStr (a ++ "," ++ b)] :: rows), st3) ->
    closes drv st3 st4 ->
    opens drv config (w_db w') st1' ->
    executes drv query' st1' st2' ->
    drv_description drv st2' = Some (d :: ds) ->
    drv_fetchall drv st2' = (Returned ([CStr a; CStr b] :: rows), st3') ->
    closes drv st3' st4' ->
    fst (execute_sql py_int py_int_error drv env query w) =
    fst (execute_sql py_int py_int_error drv env query' w').
Proof.
  intros env config d ds a b rows query w st1 st2 st3 st4
    query' w' st1' st2' st3' st4'
    Hcfg Hopen Hexec Hdesc Hfetch Hclose Hopen' Hexec' Hdesc' Hfetch' Hclose'.
  rewrite (execute_sql_rows_run py_int py_int_error drv env query w config
             st1 st2 d ds _ rows st3 st4 Hcfg Hopen Hexec Hdesc Hfetch Hclose).
  rewrite (execute_sql_rows_run py_int py_int_error drv env query' w' config
             st1' st2' d ds _ rows st3' st4'
             Hcfg Hopen' Hexec' Hdesc' Hfetch' Hclose').
  reflexivity.
Qed.

End ExecuteSqlEdges.

(** ** [main] *)

Ltac unfold_main :=
  unfold main, main_startup, main_except, print, printed;
  unfold_handlers; cbn; unfold on_database; cbn.

Section MainFacts.

Variable py_int : string -> option Z.
Variable py_int_error : string -> string.
Context {St : Type}.
Variable drv : Driver St.
Variable mcp_run : World (Process St) -> ServerEnd * World (Process St).

(** With the configuration missing, [main] prints the configuration
    error and exits with status 1; the connector is not called and the
    server loop is not entered. *)
Theorem main_configuration_error :
  forall env w e,
    get_db_config py_int py_int_error env = Raised e ->
    main py_int py_int_error drv mcp_run env w =
      (SystemExit 1, printed ("Configuration error: " ++ exc_text e) w).
Proof.
  intros env w e Hcfg.
  assert (Hclass : exc_class e = ValueError).
  { revert Hcfg. unfold get_db_config.
    destruct (py_int (getenv_default env "MYSQL_PORT" "3306")).
    - match goal with
      | |- (if ?c then _ else _) = _ -> _ => destruct c
      end; intros H; inversion H; reflexivity.
    - intros H; inversion H; reflexivity. }
  unfold_main. rewrite Hcfg. cbn. rewrite Hclass. reflexivity.
Qed.

(** When the startup connection is refused, [main] prints the error of
    its class, exits with status 1 and never enters the server loop. *)
Theorem main_connection_error :
  forall env w config e st1,
    get_db_config py_int py_int_error env = Returned config ->
    drv_connect drv config (fst (w_db w)) = (Raised e, st1) ->
    main py_int py_int_error drv mcp_run env w =
      (SystemExit 1,
       printed ((match exc_class e with
                 | ValueError => "Configuration error: "
                 | MySQLError => "MySQL connection error: "
                 | OtherException => "Unexpected error: "
                 end) ++ exc_text e)
         (mkWorld (st1, snd (w_db w)) (w_log w ++ [EvConnect config]))).
Proof.
  intros env w config e st1 Hcfg Hconnect.
  destruct w as [[st0 out] log]. cbn in Hconnect.
  unfold_main. rewrite Hcfg. cbn. rewrite Hconnect. cbn.
  destruct (exc_class e); reflexivity.
Qed.

(** When the startup probe goes through, [main] has printed the server
    version and closed the probe's cursor and connection before the
    server loop starts.  Then: if the loop returns, [main] returns; if
    it is interrupted, [main] prints the shutdown line and returns; if
    it raises, [main] prints the error under the prefix of its class, a
    [ValueError] under "Configuration error: ", and exits with
    status 1. *)
Theorem main_serves_after_probe :
  forall env w config st1 st2 version_result st3 st4,
    get_db_config py_int py_int_error env = Returned config ->
    opens drv config (fst (w_db w)) st1 ->
    executes drv "SELECT VERSION()" st1 st2 ->
    drv_fetchone drv st2 = (Returned version_result, st3) ->
    closes drv st3 st4 ->
    let started :=
      mkWorld (st4,
               append (snd (w_db w))
                 ("Connected to MySQL " ++ version_of version_result))
              (w_log w ++
               [EvConnect config; EvCursor;
                EvExecute "SELECT VERSION()" None; EvFetchone;
                EvCursorExit; EvConnExit]) in
    (forall w2, mcp_run started = (ServerReturned, w2) ->
       main py_int py_int_error drv mcp_run env w = (Returns, w2)) /\
    (forall w2, mcp_run started = (ServerInterrupted, w2) ->
       main py_int py_int_error drv mcp_run env w =
         (Returns, printed (nl ++ "Shutting down server...") w2)) /\
    (forall e w2, mcp_run started = (ServerRaised e, w2) ->
       main py_int py_int_error drv mcp_run env w =
         (SystemExit 1,
          printed ((match exc_class e with
                     | ValueError => "Configuration error: "
                     | MySQLError => "MySQL connection error: "
                     | OtherException => "Unexpected error: "
                     end) ++ exc_text e) w2)).
Proof.
  intros env w config st1 st2 version_result st3 st4
    Hcfg Hopen Hexec Hone Hclose.
  destruct w as [[st0 out] log]. cbn in Hopen. cbv zeta.
  cbn [w_db w_log fst snd].
  assert (Hstart :
    main_startup py_int py_int_error drv env (mkWorld (st0, out) log) =
      (Returned tt,
       mkWorld (st4,
                append out
                  ("Connected to MySQL " ++ version_of version_result))
               (log ++
                [EvConnect config; EvCursor;
                 EvExecute "SELECT VERSION()" None; EvFetchone;
                 EvCursorExit; EvConnExit]))).
  { unfold main_startup, print, printed. unfold_handlers.
    rewrite Hcfg. cbn. unfold on_database. cbn.
    destruct Hopen as (st & Hconnect & Hcursor).
    rewrite Hconnect. cbn. rewrite Hcursor. cbn.
    unfold executes in Hexec. cbn in Hexec. rewrite Hexec. cbn.
    rewrite Hone. cbn.
    destruct Hclose as (st' & Hcx & Hnx).
    rewrite Hcx. cbn. rewrite Hnx. cbn.
    flatten_log. reflexivity. }
  unfold main. rewrite Hstart.
  split; [|split].
  - intros w2 Hrun. rewrite Hrun. reflexivity.
  - intros w2 Hrun. rewrite Hrun. reflexivity.
  - intros e w2 Hrun. rewrite Hrun. unfold main_except, print.
    destruct (exc_class e); reflexivity.
Qed.

End MainFacts.

(** ** Runs of the added properties on the scripted connector *)

Lemma get_db_config_returns_iff_witness :
  is_set test_env "MYSQL_USER" = true /\
  (exists config,
      get_db_config decimal_int int_error_text test_env = Returned config) /\
  ~ (exists config,
        get_db_config decimal_int int_error_text empty_user_env
          = Returned config).
Proof.
  split; [reflexivity|]. split.
  - apply (proj2 (get_db_config_returns_iff decimal_int int_error_text
                    test_env)).
    repeat split; try reflexivity. discriminate.
  - intros Hsome.
    destruct (proj1 (get_db_config_returns_iff decimal_int int_error_text
                       empty_user_env) Hsome) as (_ & Huser & _).
    discriminate Huser.
Defined.

Lemma get_db_config_errors_witness :
  get_db_config decimal_int int_error_text bad_port_env =
    Raised (mkExn ValueError
              "invalid literal for int() with base 10: 'abc'") /\
  get_db_config decimal_int int_error_text empty_user_env =
    Raised (mkExn ValueError missing_config_message).
Proof.
  split.
  - exact (proj1 (get_db_config_errors decimal_int int_error_text
                    bad_port_env) eq_refl).
  - apply (proj2 (get_db_config_errors decimal_int int_error_text
                    empty_user_env)).
    + discriminate.
    + reflexivity.
Defined.

Lemma get_db_config_lookup_witness :
  get_db_config decimal_int int_error_text test_env = Returned test_config /\
  config_get "user" test_config = VStr "test_user" /\
  config_get "host" test_config = VStr "localhost" /\
  config_get "autocommit" test_config = VBool true.
Proof.
  split; [reflexivity|].
  destruct (get_db_config_lookup decimal_int int_error_text test_env
              test_config eq_refl)
    as (Huser & _ & _ & Hhost & _ & _ & _ & _ & Hauto).
  split; [exact Huser|]. split; [exact Hhost | exact Hauto].
Defined.

Lemma get_db_config_keys_witness :
  exists config,
    get_db_config decimal_int int_error_text cert_env = Returned config /\
    map fst config = (base_keys ++ ["ssl_ca"])%list /\
    config_get "ssl_ca" config = VStr "/path/to/cert.pem".
Proof.
  eexists. split; [reflexivity|].
  match goal with
  | |- map fst ?c = _ /\ _ =>
      destruct (get_db_config_keys decimal_int int_error_text cert_env c
                  eq_refl) as (Hkeys & Hssl & _)
  end.
  split; [exact Hkeys | exact Hssl].
Defined.

Lemma execute_sql_protocol_witness :
  get_db_config decimal_int int_error_text test_env = Returned test_config /\
  exists events,
    w_log (snd (execute_sql decimal_int int_error_text mock_driver test_env
                  "SHOW TABLES" (world_of show_tables_mock))) =
      ([] ++ events)%list /\
    In events (execute_sql_traces test_config "SHOW TABLES").
Proof.
  split; [reflexivity|].
  exact (execute_sql_protocol decimal_int int_error_text mock_driver
           test_env "SHOW TABLES" (world_of show_tables_mock) test_config
           eq_refl).
Defined.

Lemma list_tables_protocol_witness :
  get_db_config decimal_int int_error_text test_env = Returned test_config /\
  exists events,
    w_log (snd (list_tables decimal_int int_error_text mock_driver test_env
                  (world_of unreachable_mock))) = ([] ++ events)%list /\
    In events (list_tables_traces test_config).
Proof.
  split; [reflexivity|].
  exact (list_tables_protocol decimal_int int_error_text mock_driver
           test_env (world_of unreachable_mock) test_config eq_refl).
Defined.

Lemma describe_table_protocol_witness :
  get_db_config decimal_int int_error_text test_env = Returned test_config /\
  exists events,
    w_log (snd (describe_table decimal_int int_error_text unpack_error_text
                  mock_driver test_env "users"
                  (world_of users_table_mock))) = ([] ++ events)%list /\
    In events (describe_table_traces test_config "users").
Proof.
  split; [reflexivity|].
  exact (describe_table_protocol decimal_int int_error_text
           unpack_error_text mock_driver test_env "users"
           (world_of users_table_mock) test_config eq_refl).
Defined.


Lemma resource_handlers_return_text_witness :
  get_db_config decimal_int int_error_text test_env = Returned test_config /\
  list_tables decimal_int int_error_text mock_driver test_env
    (world_of unreachable_mock) =
    (Returned "MySQL error: Connection failed",
     mkWorld unreachable_mock [EvConnect test_config]) /\
  describe_table decimal_int int_error_text unpack_error_text mock_driver
    test_env "users" (world_of unreachable_mock) =
    (Returned "MySQL error: Connection failed",
     mkWorld unreachable_mock [EvConnect test_config]).
Proof.
  split; [reflexivity|].
  destruct (resource_handlers_return_text decimal_int int_error_text
              unpack_error_text mock_driver test_env "users"
              (world_of unreachable_mock) test_config eq_refl)
    as (_ & _ & Hrefused).
  exact (Hrefused (mkExn MySQLError "Connection failed") unreachable_mock
           eq_refl).
Defined.

Lemma describe_table_no_columns_witness :
  drv_fetchall mock_driver no_match_mock = (Returned [], no_match_mock) /\
  describe_table decimal_int int_error_text unpack_error_text mock_driver
    test_env "ghost" (world_of no_match_mock) =
    (Returned "Table 'ghost' not found or has no columns.",
     mkWorld no_match_mock
       [EvConnect test_config; EvCursor; EvExecute "DESCRIBE `ghost`" None;
        EvFetchall; EvCursorExit; EvConnExit]).
Proof.
  split; [reflexivity|].
  exact (describe_table_no_columns decimal_int int_error_text
           unpack_error_text mock_driver test_env "ghost"
           (world_of no_match_mock) test_config
           no_match_mock no_match_mock no_match_mock no_match_mock
           eq_refl (mock_opens test_config no_match_mock eq_refl)
           eq_refl eq_refl (mock_closes no_match_mock)).
Defined.

Lemma describe_table_wrong_row_witness :
  List.length [CStr "name"; CStr "varchar(255)"] <> 6%nat /\
  describe_table decimal_int int_error_text unpack_error_text mock_driver
    test_env "users" (world_of short_row_mock) =
    (Returned ("Unexpected error: " ++
               "not enough values to unpack (expected 6, got 2)"),
     mkWorld short_row_mock
       [EvConnect test_config; EvCursor; EvExecute "DESCRIBE `users`" None;
        EvFetchall; EvCursorExit; EvConnExit]).
Proof.
  assert (Hbad : List.length [CStr "name"; CStr "varchar(255)"] <> 6%nat)
    by discriminate.
  assert (Hgood : Forall (fun col : Row => List.length col = 6%nat)
            [[CStr "id"; CStr "int(11)"; CStr "NO"; CStr "PRI"; CNone;
              CStr "auto_increment"]])
    by (constructor; [reflexivity | constructor]).
  split; [exact Hbad|].
  exact (describe_table_wrong_row decimal_int int_error_text
           unpack_error_text mock_driver test_env "users"
           (world_of short_row_mock) test_config
           short_row_mock short_row_mock
           [[CStr "id"; CStr "int(11)"; CStr "NO"; CStr "PRI"; CNone;
             CStr "auto_increment"]]
           [CStr "name"; CStr "varchar(255)"] []
           short_row_mock short_row_mock
           eq_refl (mock_opens test_config short_row_mock eq_refl)
           eq_refl eq_refl
           Hgood Hbad
           (mock_closes short_row_mock)).
Defined.

Lemma execute_sql_exit_error_wins_witness :
  fst (execute_sql decimal_int int_error_text
         (closing_error_driver (mkExn MySQLError "Lost connection"))
         test_env "SHOW TABLES" (world_of show_tables_mock)) =
    Returned "MySQL error: Lost connection".
Proof.
  exact (execute_sql_exit_error_wins decimal_int int_error_text
           (closing_error_driver (mkExn MySQLError "Lost connection"))
           test_env "SHOW TABLES" (world_of show_tables_mock) test_config
           show_tables_mock (mkExn MySQLError "Lost connection")
           eq_refl eq_refl (fun st => ex_intro _ st eq_refl)).
Defined.

Lemma execute_sql_comma_ambiguity_witness :
  fst (execute_sql decimal_int int_error_text mock_driver test_env
         "SELECT name FROM users" (world_of comma_cell_mock)) =
  fst (execute_sql decimal_int int_error_text mock_driver test_env
         "SELECT last, first FROM users" (world_of two_cells_mock)).
Proof.
  exact (execute_sql_comma_ambiguity decimal_int int_error_text mock_driver
           test_env test_config (mkDesc "name" []) [] "Doe" "Jane" []
           "SELECT name FROM users" (world_of comma_cell_mock)
           comma_cell_mock comma_cell_mock comma_cell_mock comma_cell_mock
           "SELECT last, first FROM users" (world_of two_cells_mock)
           two_cells_mock two_cells_mock two_cells_mock two_cells_mock
           eq_refl
           (mock_opens test_config comma_cell_mock eq_refl) eq_refl eq_refl
           eq_refl (mock_closes comma_cell_mock)
           (mock_opens test_config two_cells_mock eq_refl) eq_refl eq_refl
           eq_refl (mock_closes two_cells_mock)).
Defined.

Lemma main_configuration_error_witness :
  main decimal_int int_error_text mock_driver idle_server empty_env
    (process_of version_mock) =
    (SystemExit 1,
     mkWorld (version_mock,
              ["Configuration error: " ++ missing_config_message]) []).
Proof.
  exact (main_configuration_error decimal_int int_error_text mock_driver
           idle_server empty_env (process_of version_mock)
           (mkExn ValueError missing_config_message) eq_refl).
Defined.

Lemma main_connection_error_witness :
  main decimal_int int_error_text mock_driver idle_server test_env
    (process_of unreachable_mock) =
    (SystemExit 1,
     mkWorld (unreachable_mock,
              ["MySQL connection error: Connection failed"])
       [EvConnect test_config]).
Proof.
  exact (main_connection_error decimal_int int_error_text mock_driver
           idle_server test_env (process_of unreachable_mock) test_config
           (mkExn MySQLError "Connection failed") unreachable_mock
           eq_refl eq_refl).
Defined.

Lemma main_serves_after_probe_witness :
  main decimal_int int_error_text mock_driver interrupted_server test_env
    (process_of version_mock) =
    (Returns,
     mkWorld (version_mock,
              ["Connected to MySQL 8.0.33";
               nl ++ "Shutting down server..."])
       [EvConnect test_config; EvCursor; EvExecute "SELECT VERSION()" None;
        EvFetchone; EvCursorExit; EvConnExit]).
Proof.
  destruct (main_serves_after_probe decimal_int int_error_text mock_driver
              interrupted_server test_env (process_of version_mock)
              test_config version_mock version_mock (Some [CStr "8.0.33"])
              version_mock version_mock
              eq_refl (mock_opens test_config version_mock eq_refl)
              eq_refl eq_refl (mock_closes version_mock))
    as (_ & Hinterrupted & _).
  exact (Hinterrupted _ eq_refl).
Defined.

Lemma execute_sql_rows_split_lines_witness :
  exists out,
    fst (execute_sql decimal_int int_error_text mock_driver test_env
           "SHOW TABLES" (world_of show_tables_mock)) = Returned out /\
    split_lines out = ["Tables_in_test_db"; "users"; "products"].
Proof.
  exact (execute_sql_rows_split_lines decimal_int int_error_text mock_driver
           test_env "SHOW TABLES" (world_of show_tables_mock) test_config
           show_tables_mock show_tables_mock
           (mkDesc "Tables_in_test_db" []) []
           [CStr "users"] [[CStr "products"]]
           show_tables_mock show_tables_mock
           eq_refl (mock_opens test_config show_tables_mock eq_refl)
           eq_refl eq_refl eq_refl (mock_closes show_tables_mock) eq_refl).
Defined.

Lemma describe_table_sends_describe_witness :
  exists later,
    w_log (snd (describe_table decimal_int int_error_text unpack_error_text
                  mock_driver test_env "a`; DROP TABLE users; --"
                  (world_of no_match_mock))) =
      ([] ++
       [EvConnect test_config; EvCursor;
        EvExecute "DESCRIBE `a`; DROP TABLE users; --`" None] ++ later)%list.
Proof.
  exact (describe_table_sends_describe decimal_int int_error_text
           unpack_error_text mock_driver test_env
           "a`; DROP TABLE users; --" (world_of no_match_mock) test_config
           no_match_mock eq_refl
           (mock_opens test_config no_match_mock eq_refl)).
Defined.
